(** * AI Research & Chart Generator: a shallow embedding of [app.py]

    The program is a Streamlit script: a search client ([search_web]), a
    chat-completion wrapper ([call_openai_api]), two prompt-building agents
    and the page function [main], which keeps the last research text and the
    last chart code in the session state.

    Python values are the values a JSON body can hold.  Effects are explicit:
    a computation reads the session state, returns a result (a value, a raised
    exception, or the script stop of [st.stop()]), the new session state and
    the list of events it produced, in order (HTTP requests, session writes,
    rendered widgets).  Everything outside the program (environment, secrets
    store, the two HTTP endpoints, the formatting of non-string values) is a
    field of [world]; what the user did on the page is [inputs]. *)

From Stdlib Require Import ZArith String Ascii List Floats DecimalString Lia.
From stdpp Require Import gmap strings.
Import ListNotations.

Set Warnings "-inexact-float,-register-all".
Local Open Scope string_scope.

(** ** Python values *)

Inductive pyval : Type :=
| VNone
| VBool (b : bool)
| VInt (n : Z)
| VFloat (f : float)
| VStr (s : string)
| VList (items : list pyval)
| VDict (fields : list (string * pyval)).

(** Exceptions, each with what [str(e)] needs.  [str(KeyError(k))] is
    [repr(k)], which [KeyError] carries.  [StreamlitAPIException] is what a
    widget raises when it refuses an argument (a [RuntimeError] in older
    releases of Streamlit); all of them derive from [Exception]. *)
Inductive exn : Type :=
| KeyError (repr_key : string)
| TypeError (msg : string)
| IndexError (msg : string)
| AttributeError (msg : string)
| RequestException (msg : string)
| StreamlitAPIException (msg : string).

Definition str_exn (e : exn) : string :=
  match e with
  | KeyError r => r
  | TypeError m | IndexError m | AttributeError m | RequestException m
  | StreamlitAPIException m => m
  end.

(** The result of running Python code: a value, an exception that derives
    from [Exception], or Streamlit's script stop, which does not. *)
Inductive result (A : Type) : Type :=
| Ok (a : A)
| Raise (e : exn)
| Stop.
Arguments Ok {A} a.
Arguments Raise {A} e.
Arguments Stop {A}.

Definition rbind {A B : Type} (r : result A) (k : A -> result B) : result B :=
  match r with
  | Ok a => k a
  | Raise e => Raise e
  | Stop => Stop
  end.

Declare Scope py_scope.
Delimit Scope py_scope with py.
Notation "x <~ e ;; k" := (rbind e (fun x => k))
  (at level 100, e at next level, right associativity) : py_scope.

(** ** Strings *)

Definition nl : string := String (ascii_of_nat 10) EmptyString.

(** A [str] is held as its UTF-8 encoding, one [ascii] per byte, as the
    literals of this file are.  A character (a code point) is a byte that is
    no continuation byte, followed by its continuation bytes, which are the
    bytes [0x80..0xBF]. *)
Definition continuation (c : ascii) : bool :=
  let n := nat_of_ascii c in ((128 <=? n) && (n <? 192))%nat.

(** [len(s)]: the number of characters. *)
Fixpoint str_len (s : string) : nat :=
  match s with
  | EmptyString => 0
  | String c s' => if continuation c then str_len s' else S (str_len s')
  end.

(** [s[:n]]: the first [n] characters, each with its continuation bytes. *)
Fixpoint take_str (n : nat) (s : string) : string :=
  match s with
  | EmptyString => EmptyString
  | String c s' =>
      if continuation c then String c (take_str n s')
      else
        match n with
        | O => EmptyString
        | S n' => String c (take_str n' s')
        end
  end.

(** [s] goes on with a continuation byte, so with the rest of a character. *)
Definition continues (s : string) : bool :=
  match s with
  | String c _ => continuation c
  | EmptyString => false
  end.

(** The characters of [s], as [s[0]] and [for ch in s] see them: a new
    character starts at the first byte and at every byte that is no
    continuation byte. *)
Fixpoint chars (s : string) : list string :=
  match s with
  | EmptyString => []
  | String c s' =>
      match chars s' with
      | ch :: rest =>
          if continues s' then String c ch :: rest
          else String c EmptyString :: ch :: rest
      | [] => [String c EmptyString]
      end
  end.

(** [s.replace(old, new)] for [old] and [new] of one byte each (ASCII
    characters, which are never part of a longer character). *)
Fixpoint replace_char (old new : ascii) (s : string) : string :=
  match s with
  | EmptyString => EmptyString
  | String c s' =>
      String (if Ascii.eqb c old then new else c) (replace_char old new s')
  end.

(** [sub in s] on strings.  (UTF-8 is self-synchronising: the bytes of one
    text occur in another exactly where its characters do.) *)
Fixpoint contains (sub s : string) : bool :=
  String.prefix sub s ||
  match s with
  | EmptyString => false
  | String _ s' => contains sub s'
  end.

Definition str_of_Z (n : Z) : string := NilZero.string_of_int (Z.to_int n).

(** ** Operations on values *)

Definition truthy (v : pyval) : bool :=
  match v with
  | VNone => false
  | VBool b => b
  | VInt n => negb (n =? 0)%Z
  | VFloat f => negb (PrimFloat.eqb f 0%float)
  | VStr s => negb (String.eqb s "")
  | VList items => match items with [] => false | _ => true end
  | VDict fields => match fields with [] => false | _ => true end
  end.

Definition type_name (v : pyval) : string :=
  match v with
  | VNone => "NoneType"
  | VBool _ => "bool"
  | VInt _ => "int"
  | VFloat _ => "float"
  | VStr _ => "str"
  | VList _ => "list"
  | VDict _ => "dict"
  end.

Fixpoint assoc (k : string) (fields : list (string * pyval)) : option pyval :=
  match fields with
  | [] => None
  | (k', v) :: rest => if String.eqb k k' then Some v else assoc k rest
  end.

Definition isinstance_dict (v : pyval) : bool :=
  match v with VDict _ => true | _ => false end.

Definition isinstance_str (v : pyval) : bool :=
  match v with VStr _ => true | _ => false end.

Definition str_eq (k : string) (v : pyval) : bool :=
  match v with VStr s => String.eqb k s | _ => false end.

Definition not_subscriptable {A : Type} (v : pyval) : result A :=
  Raise (TypeError ("'" ++ type_name v ++ "' object is not subscriptable")).

(** [k in v] for a string [k]: key of a dict, element of a list, substring
    of a string; no other value is a container. *)
Definition py_in (k : string) (v : pyval) : result bool :=
  match v with
  | VDict fields => Ok (match assoc k fields with Some _ => true | None => false end)
  | VList items => Ok (existsb (str_eq k) items)
  | VStr s => Ok (contains k s)
  | _ => Raise (TypeError ("argument of type '" ++ type_name v ++ "' is not iterable"))
  end.

(** [v[k]] for a string [k]. *)
Definition getitem (v : pyval) (k : string) : result pyval :=
  match v with
  | VDict fields =>
      match assoc k fields with
      | Some x => Ok x
      | None => Raise (KeyError ("'" ++ k ++ "'"))
      end
  | VList _ => Raise (TypeError "list indices must be integers or slices, not str")
  | VStr _ => Raise (TypeError "string indices must be integers, not 'str'")
  | _ => not_subscriptable v
  end.

(** [v[0]]; the keys of a parsed JSON object are strings, so a dict has no
    key [0]. *)
Definition getitem0 (v : pyval) : result pyval :=
  match v with
  | VList (x :: _) => Ok x
  | VList [] => Raise (IndexError "list index out of range")
  | VStr s =>
      match chars s with
      | ch :: _ => Ok (VStr ch)
      | [] => Raise (IndexError "string index out of range")
      end
  | VDict _ => Raise (KeyError "0")
  | _ => not_subscriptable v
  end.

(** The items of [v[:3]], as the [for] loop sees them: a list gives its first
    three items, a string its first three characters, a dict has no slice. *)
Definition slice3 (v : pyval) : result (list pyval) :=
  match v with
  | VList items => Ok (firstn 3 items)
  | VStr s => Ok (map VStr (firstn 3 (chars s)))
  | VDict _ => Raise (TypeError "unhashable type: 'slice'")
  | _ => not_subscriptable v
  end.

(** [x and y] where [y] is evaluated only when [x] is true. *)
Definition and_then (x : bool) (y : result bool) : result bool :=
  if x then y else Ok false.

(** [a or b] on values. *)
Definition py_or (a b : pyval) : pyval := if truthy a then a else b.

(** ** The world outside the program *)

(** [response.json()] either parses the body or raises. *)
Inductive body : Type :=
| Json (v : pyval)
| NotJson (e : exn).

Record response : Type := Response { status_code : Z; payload : body }.

(** [requests.get] and [requests.post] return a response or raise
    (connection error, timeout, ...). *)
Inductive http_outcome : Type :=
| Responded (r : response)
| Failed (e : exn).

Record world : Type := World {
  (** [os.getenv]: the environment variable, when it is set *)
  getenv : string -> option string;
  (** [st.secrets], a mapping read with [.get(key, default)] *)
  secrets : gmap string pyval;
  (** [requests.get(url, timeout=...)] *)
  http_get : string -> Z -> http_outcome;
  (** [requests.post(url, headers=..., json=..., timeout=...)] *)
  http_post : string -> list (string * string) -> pyval -> Z -> http_outcome;
  (** [repr] of a value, which is what an f-string prints for a value that
      is not a string *)
  py_repr : pyval -> string
}.

(** What the widgets return on one run of the script. *)
Record inputs : Type := Inputs {
  (** the example button with this key was clicked *)
  example_clicked : string -> bool;
  (** the text the user left in the query box, if they edited it *)
  text_entered : option string;
  (** the primary button was clicked *)
  generate_clicked : bool
}.

(** ** Events and the effect monad *)

Inductive widget : Type :=
| page_config (page_title page_icon layout initial_sidebar_state : string)
| markdown (text : string) (unsafe_allow_html : bool)
| sidebar
| header (text : string)
| button (label : string) (key : option string)
| error (text : string)
| info (text : string)
| success (text : string)
| warning (text : string)
| code (content : pyval) (language : option string)
| text_input (label value placeholder : string)
| spinner (text : string)
| write (content : pyval)
| download_button (label : string) (data : pyval) (file_name mime : string)
| expander (label : string).

Inductive event : Type :=
| HttpGet (url : string) (timeout : Z)
| HttpPost (url : string) (headers : list (string * string)) (json : pyval) (timeout : Z)
| SetState (key : string) (v : pyval)
| Render (w : widget).

Record outcome (A : Type) : Type := Out {
  value : result A;
  state : gmap string pyval;
  events : list event
}.
Arguments Out {A} value state events.
Arguments value {A} o.
Arguments state {A} o.
Arguments events {A} o.

Definition M (A : Type) : Type := gmap string pyval -> outcome A.

Definition ret {A : Type} (a : A) : M A := fun s => Out (Ok a) s [].

Definition bind {A B : Type} (m : M A) (k : A -> M B) : M B :=
  fun s =>
    let o := m s in
    match value o with
    | Ok a => let o' := k a (state o) in
              Out (value o') (state o') (events o ++ events o')
    | Raise e => Out (Raise e) (state o) (events o)
    | Stop => Out Stop (state o) (events o)
    end.

Notation "x <- e ;; k" := (bind e (fun x => k))
  (at level 100, e at next level, right associativity) : py_scope.
Notation "e ;; k" := (bind e (fun _ => k))
  (at level 100, right associativity) : py_scope.

Definition lift {A : Type} (r : result A) : M A := fun s => Out r s [].

Definition emit (e : event) : M unit := fun s => Out (Ok tt) s [e].

Definition st (w : widget) : M unit := emit (Render w).

(** [try: m except Exception as e: handler e] *)
Definition try_except {A : Type} (m : M A) (handler : exn -> M A) : M A :=
  fun s =>
    let o := m s in
    match value o with
    | Raise e => let o' := handler e (state o) in
                 Out (value o') (state o') (events o ++ events o')
    | _ => o
    end.

(** [if c: m] *)
Definition when (c : bool) (m : M unit) : M unit := if c then m else ret tt.

(** [st.session_state.key = v] *)
Definition set_state (key : string) (v : pyval) : M unit :=
  fun s => Out (Ok tt) (<[key := v]> s) [SetState key v].

(** [st.session_state.key] *)
Definition no_attribute (key : string) : exn :=
  AttributeError ("st.session_state has no attribute " ++ key).

Definition get_state (key : string) : M pyval :=
  fun s =>
    match s !! key with
    | Some v => Out (Ok v) s []
    | None => Out (Raise (no_attribute key)) s []
    end.

(** [st.session_state.get(key, dflt)] *)
Definition get_state_default (key : string) (dflt : pyval) : M pyval :=
  fun s => Out (Ok (default dflt (s !! key))) s [].

(** ['key' not in st.session_state] *)
Definition not_in_state (key : string) : M bool :=
  fun s => Out (Ok (match s !! key with Some _ => false | None => true end)) s [].

Local Open Scope py_scope.

Section Program.

Variable w : world.

(** [str(v)], as an f-string formats [v] *)
Definition py_str (v : pyval) : string :=
  match v with
  | VStr s => s
  | _ => py_repr w v
  end.

Definition os_getenv (name : string) : pyval :=
  match getenv w name with
  | Some s => VStr s
  | None => VNone
  end.

(** [st.secrets.get(key, dflt)] on the store as it was read.  Streamlit
    raises when there is no secrets file at all; [secrets] is the content of
    a store that could be read, so that failure is outside this model: a
    world stands for an environment whose store, when it is read, can be
    read. *)
Definition secrets_get (key : string) (dflt : pyval) : pyval :=
  default dflt (secrets w !! key).

Definition requests_get (url : string) (timeout : Z) : M response :=
  fun s =>
    Out (match http_get w url timeout with
         | Responded r => Ok r
         | Failed e => Raise e
         end) s [HttpGet url timeout].

Definition requests_post (url : string) (headers : list (string * string))
    (json : pyval) (timeout : Z) : M response :=
  fun s =>
    Out (match http_post w url headers json timeout with
         | Responded r => Ok r
         | Failed e => Raise e
         end) s [HttpPost url headers json timeout].

Definition response_json (r : response) : result pyval :=
  match payload r with
  | Json v => Ok v
  | NotJson e => Raise e
  end.

(** *** [search_web] *)

Definition search_url (query : string) : string :=
  "https://api.duckduckgo.com/?q=" ++ query ++ "&format=json&no_redirect=1".

(** The loop over [data['RelatedTopics'][:3]]. *)
Fixpoint related_topics (topics : list pyval) (results : list string)
    : result (list string) :=
  match topics with
  | [] => Ok results
  | topic :: rest =>
      c <~ and_then (isinstance_dict topic) (py_in "Text" topic) ;;
      if c then
        t <~ getitem topic "Text" ;;
        related_topics rest (results ++ ["Related: " ++ py_str t])
      else related_topics rest results
  end.

(** The branch of [search_web] for status 200, after [response.json()]. *)
Definition extract_results (query : string) (data : pyval) : result string :=
  has_abstract <~ py_in "AbstractText" data ;;
  results <~ (if has_abstract then
                a <~ getitem data "AbstractText" ;;
                Ok (if truthy a then ["Summary: " ++ py_str a] else [])
              else Ok []) ;;
  has_related <~ py_in "RelatedTopics" data ;;
  results <~ (if has_related then
                rt <~ getitem data "RelatedTopics" ;;
                topics <~ slice3 rt ;;
                related_topics topics results
              else Ok results) ;;
  Ok (match results with
      | [] => "Basic search completed for: " ++ query
      | _ => String.concat (nl ++ nl) results
      end).

Definition search_non200 (query : string) : string :=
  "Search completed for: " ++ query ++
  ". Please provide more specific terms for better results.".

Definition search_failed (query : string) : string :=
  "Web search for '" ++ query ++
  "' completed. Manual research may be needed for specific data.".

Definition search_web (query : string) : M string :=
  try_except
    (resp <- requests_get (search_url query) 10 ;;
     if (status_code resp =? 200)%Z then
       data <- lift (response_json resp) ;;
       lift (extract_results query data)
     else ret (search_non200 query))
    (fun _ => ret (search_failed query)).

(** *** [call_openai_api] *)

Definition key_not_found : string :=
  "❌ OpenAI API key not found. Please add it in Streamlit secrets.".

Definition resolve_api_key : pyval :=
  py_or (os_getenv "OPENAI_API_KEY") (secrets_get "OPENAI_API_KEY" (VStr "")).

Definition chat_url : string := "https://api.openai.com/v1/chat/completions".

Definition chat_headers (api_key : pyval) : list (string * string) :=
  [("Authorization", "Bearer " ++ py_str api_key);
   ("Content-Type", "application/json")].

Definition chat_data (messages : pyval) : pyval :=
  VDict [("model", VStr "gpt-4-1106-preview");
         ("messages", messages);
         ("temperature", VFloat 0.1%float);
         ("max_tokens", VInt 2000)].

(** [result['choices'][0]['message']['content']] *)
Definition first_choice_content (res : pyval) : result pyval :=
  choices <~ getitem res "choices" ;;
  first <~ getitem0 choices ;;
  message <~ getitem first "message" ;;
  getitem message "content".

Definition api_error (status : Z) : string :=
  "API Error: " ++ str_of_Z status ++ ". Please check your API key and try again.".

Definition call_openai_api (messages : pyval) : M pyval :=
  try_except
    (let api_key := resolve_api_key in
     if negb (truthy api_key) then ret (VStr key_not_found)
     else
       resp <- requests_post chat_url (chat_headers api_key) (chat_data messages) 30 ;;
       if (status_code resp =? 200)%Z then
         res <- lift (response_json resp) ;;
         lift (first_choice_content res)
       else ret (VStr (api_error (status_code resp))))
    (fun e => ret (VStr ("Error calling OpenAI API: " ++ str_exn e))).

(** *** The two agents *)

Definition dq : string := String (ascii_of_nat 34) EmptyString.

Definition lines (ls : list string) : string := String.concat nl ls.

Definition research_working_html : string :=
  lines ["";
         "    <div class=" ++ dq ++ "step-box research-box" ++ dq ++ ">";
         "        <h3>🔍 RESEARCH AGENT WORKING...</h3>";
         "        <p>Searching for data related to your query...</p>";
         "    </div>";
         "    "].

Definition research_system_prompt : string :=
  lines ["You are a research specialist. Analyze the query and provide structured data that can be used for visualization. ";
         "";
         "If you have search results, extract numerical data. If not, provide typical/example data that would answer the query.";
         "";
         "Format your response as:";
         "1. Data Summary";
         "2. Key Numbers/Statistics  ";
         "3. Recommended Chart Type";
         "4. Data Structure for Visualization";
         "";
         "Be specific with numbers, dates, and sources when available."].

Definition message (role content : string) : pyval :=
  VDict [("role", VStr role); ("content", VStr content)].

Definition research_messages (query search_results : string) : pyval :=
  VList [message "system" research_system_prompt;
         message "user"
           ("Query: " ++ query ++ nl ++ nl ++
            "Search Results: " ++ search_results ++ nl ++ nl ++
            "Please provide structured data for visualization.")].

Definition research_agent (query : string) : M pyval :=
  st (markdown research_working_html true) ;;
  search_results <- search_web query ;;
  resp <- call_openai_api (research_messages query search_results) ;;
  ret resp.

Definition chart_working_html : string :=
  lines ["";
         "    <div class=" ++ dq ++ "step-box code-box" ++ dq ++ ">";
         "        <h3>📊 CHART GENERATOR WORKING...</h3>";
         "        <p>Creating Python code for your visualization...</p>";
         "    </div>";
         "    "].

Definition chart_system_prompt : string :=
  lines ["You are a data visualization expert. Create complete, runnable Python code using matplotlib that users can copy and run locally.";
         "";
         "Your code must include:";
         "1. All necessary imports (matplotlib.pyplot as plt, pandas as pd, numpy as np)";
         "2. Data setup (create sample data if needed)";
         "3. Professional chart creation with proper styling";
         "4. Clear labels, titles, and formatting";
         "5. plt.show() at the end";
         "";
         "Choose the appropriate chart type (line, bar, scatter, pie, etc.) based on the data and query.";
         "";
         "Make the code self-contained and ready to run."].

Definition chart_messages (research_data : pyval) (original_query : string) : pyval :=
  VList [message "system" chart_system_prompt;
         message "user"
           ("Original Query: " ++ original_query ++ nl ++ nl ++
            "Research Data: " ++ py_str research_data ++ nl ++ nl ++
            "Create complete Python visualization code.")].

Definition chart_generator_agent (research_data : pyval) (original_query : string)
    : M pyval :=
  st (markdown chart_working_html true) ;;
  resp <- call_openai_api (chart_messages research_data original_query) ;;
  ret resp.

(** *** [main] *)

Variable inp : inputs.

(** [st.button(...)]: renders the button, returns whether it was clicked. *)
Definition st_button (label : string) (key : option string) (clicked : bool) : M bool :=
  fun s => Out (Ok clicked) s [Render (button label key)].

(** [st.text_input(...)]: the text in the box, [value] unless the user
    edited it. *)
Definition st_text_input (label value placeholder : string) : M string :=
  fun s => Out (Ok (default value (text_entered inp))) s
               [Render (text_input label value placeholder)].

(** [st.stop()] *)
Definition st_stop : M unit := fun s => Out Stop s [].

(** [st.download_button(label, data, file_name, mime)]: the data has to be
    text, bytes or an open file.  Of the values a JSON body can hold only a
    string is one of them; for any other value the widget raises before it
    renders anything. *)
Definition invalid_data (data : pyval) : exn :=
  StreamlitAPIException
    ("Invalid binary data format: <class '" ++ type_name data ++ "'>").

Definition st_download_button (label : string) (data : pyval)
    (file_name mime : string) : M unit :=
  if isinstance_str data then st (download_button label data file_name mime)
  else lift (Raise (invalid_data data)).

Definition main_header_html : string :=
  lines ["";
         "    <div class=" ++ dq ++ "main-header" ++ dq ++ ">";
         "        <h1>🤖 AI Research & Chart Generator</h1>";
         "        <p>AI-Powered Data Research and Visualization Code Generator</p>";
         "    </div>";
         "    "].

Definition how_it_works : string :=
  lines ["";
         "        1. **🔍 Research**: AI searches for your data";
         "        2. **📊 Generate**: AI creates Python chart code  ";
         "        3. **📝 Copy**: Copy code to run locally";
         "        "].

Definition example_queries : list string :=
  ["Top 10 most populated countries bar chart";
   "UK GDP past 3 years line chart";
   "Bitcoin price trend last 6 months";
   "Global temperature trends decade";
   "IPL winners last 5 years scores"].

(** The loop over [example_queries] in the sidebar. *)
Fixpoint example_buttons (queries : list string) : M unit :=
  match queries with
  | [] => ret tt
  | query :: rest =>
      clicked <- st_button ("📝 " ++ query) (Some query) (example_clicked inp query) ;;
      when clicked (set_state "selected_query" (VStr query)) ;;
      example_buttons rest
  end.

Definition research_results_html : string :=
  lines ["";
         "                <div class=" ++ dq ++ "step-box research-box" ++ dq ++ ">";
         "                    <h3>🔍 Research Results</h3>";
         "                </div>";
         "                "].

Definition chart_code_html : string :=
  lines ["";
         "                    <div class=" ++ dq ++ "step-box code-box" ++ dq ++ ">";
         "                        <h3>📊 Generated Chart Code</h3>";
         "                    </div>";
         "                    "].

Definition space : ascii := ascii_of_nat 32.
Definition underscore : ascii := ascii_of_nat 95.

(** [f"chart_{user_query[:20].replace(' ', '_')}.py"] *)
Definition download_name (user_query : string) : string :=
  "chart_" ++ replace_char space underscore (take_str 20 user_query) ++ ".py".

(** The display of the chart code and the download button (the body of
    [if st.session_state.chart_code:]). *)
Definition show_chart_code (user_query : string) : M unit :=
  st (markdown chart_code_html true) ;;
  shown <- get_state "chart_code" ;;
  st (code shown (Some "python")) ;;
  st (success "🎉 Chart code generated successfully!") ;;
  st (info "💡 Copy the code above and run it in your local Python environment.") ;;
  data <- get_state "chart_code" ;;
  st_download_button "📥 Download Python Code" data (download_name user_query)
    "text/plain".

(** Step 2 (the body of [if st.session_state.research_data:]). *)
Definition show_research_and_chart (user_query : string) : M unit :=
  st (markdown research_results_html true) ;;
  shown <- get_state "research_data" ;;
  st (write shown) ;;
  st (spinner "📊 Generating chart code...") ;;
  research_data <- get_state "research_data" ;;
  chart_code <- chart_generator_agent research_data user_query ;;
  when (truthy chart_code) (set_state "chart_code" chart_code) ;;
  stored <- get_state "chart_code" ;;
  when (truthy stored) (show_chart_code user_query).

(** The body of [if user_query:]. *)
Definition run_pipeline (user_query : string) : M unit :=
  set_state "research_data" VNone ;;
  set_state "chart_code" VNone ;;
  st (spinner "🔍 Researching data...") ;;
  research_data <- research_agent user_query ;;
  when (truthy research_data) (set_state "research_data" research_data) ;;
  stored <- get_state "research_data" ;;
  when (truthy stored) (show_research_and_chart user_query).

(** The body of [if st.button("Generate ...")]. *)
Definition on_generate (user_query : string) : M unit :=
  if truthy (VStr user_query) then run_pipeline user_query
  else st (warning "⚠️ Please enter a query!").

(** The section [Show previous results] at the end of [main]. *)
Definition previous_results : M unit :=
  research_data <- get_state "research_data" ;;
  both <- (if truthy research_data then
             chart_code <- get_state "chart_code" ;; ret (truthy chart_code)
           else ret false) ;;
  when both
    (st (markdown "---" false) ;;
     st (header "📋 Previous Results") ;;
     st (expander "View Research Data") ;;
     shown <- get_state "research_data" ;;
     st (write shown) ;;
     st (expander "View Chart Code") ;;
     shown_code <- get_state "chart_code" ;;
     st (code shown_code (Some "python"))).

(** [main], part by part as its comments divide it: header, sidebar, check
    of the API key, main input, generate button, previous results. *)
Definition page_header : M unit := st (markdown main_header_html true).

Definition sidebar_panel : M unit :=
  st sidebar ;;
  st (header "📋 How it works") ;;
  st (markdown how_it_works false) ;;
  st (header "💡 Example Queries") ;;
  example_buttons example_queries.

Definition check_api_key : M unit :=
  let api_key := resolve_api_key in
  if negb (truthy api_key) then
    st (error "❌ OpenAI API key not found!") ;;
    st (info "Please add your OpenAI API key in Streamlit secrets:") ;;
    st (code (VStr ("OPENAI_API_KEY = " ++ dq ++ "sk-your-key-here" ++ dq)) None) ;;
    st_stop
  else st (success "✅ AI System Ready!").

Definition main_input : M string :=
  selected <- get_state_default "selected_query" (VStr "") ;;
  st_text_input "🎯 What would you like to research and visualize?"
    (py_str selected)
    "e.g., Show me top 10 most populated countries with a bar chart".

Definition generate_button (user_query : string) : M unit :=
  clicked <- st_button "🚀 Generate Research & Chart Code" None (generate_clicked inp) ;;
  when clicked (on_generate user_query).

Definition main : M unit :=
  page_header ;;
  sidebar_panel ;;
  check_api_key ;;
  user_query <- main_input ;;
  generate_button user_query ;;
  previous_results.

Definition page_css : string :=
  lines ["";
         "<style>";
         "    .main-header {";
         "        text-align: center;";
         "        padding: 1rem 0;";
         "        background: linear-gradient(90deg, #667eea 0%, #764ba2 100%);";
         "        color: white;";
         "        border-radius: 10px;";
         "        margin-bottom: 2rem;";
         "    }";
         "    .step-box {";
         "        padding: 1rem;";
         "        border-radius: 10px;";
         "        margin: 1rem 0;";
         "        border-left: 4px solid #667eea;";
         "        background-color: #f9f9f9;";
         "    }";
         "    .research-box {";
         "        background-color: #f0f8ff;";
         "        border-left-color: #4CAF50;";
         "    }";
         "    .code-box {";
         "        background-color: #fff5f5;";
         "        border-left-color: #FF6B6B;";
         "    }";
         "</style>";
         ""].

(** The script from its first line: page set-up, the session state's two
    keys created when missing, then [main()]. *)
Definition script : M unit :=
  st (page_config "AI Research & Chart Generator" "📊" "wide" "expanded") ;;
  st (markdown page_css true) ;;
  missing <- not_in_state "research_data" ;;
  when missing (set_state "research_data" VNone) ;;
  missing <- not_in_state "chart_code" ;;
  when missing (set_state "chart_code" VNone) ;;
  main.

End Program.

(** ** What the calls return

    The client, the wrapper and the agents leave the session state alone and
    always return a value (proved below), so each has a returned value and a
    list of events that depend on the world and the arguments only. *)

Section Returned.

Variable w : world.

(** The [Related: ...] line a topic contributes: one line when the topic is
    a dict with a [Text] field, none otherwise. *)
Definition topic_block (topic : pyval) : list string :=
  match topic with
  | VDict fields =>
      match assoc "Text" fields with
      | Some t => ["Related: " ++ py_str w t]
      | None => []
      end
  | _ => []
  end.

(** The text built from the collected lines. *)
Definition join_results (query : string) (results : list string) : string :=
  match results with
  | [] => "Basic search completed for: " ++ query
  | _ => String.concat (nl ++ nl) results
  end.

(** What [search_web] returns. *)
Definition search_text (query : string) : string :=
  match value (search_web w query ∅) with
  | Ok text => text
  | _ => ""
  end.

(** What [call_openai_api] returns, and the events of the call. *)
Definition completion (messages : pyval) : pyval :=
  match value (call_openai_api w messages ∅) with
  | Ok v => v
  | _ => VNone
  end.

Definition chat_events (messages : pyval) : list event :=
  events (call_openai_api w messages ∅).

(** What [research_agent] and [chart_generator_agent] return. *)
Definition research_text (query : string) : pyval :=
  match value (research_agent w query ∅) with
  | Ok v => v
  | _ => VNone
  end.

Definition chart_text (research_data : pyval) (query : string) : pyval :=
  match value (chart_generator_agent w research_data query ∅) with
  | Ok v => v
  | _ => VNone
  end.

(** The credential check, [if not api_key] negated. *)
Definition has_api_key : bool := truthy (resolve_api_key w).

End Returned.

(** ** The page *)

Section Page.

Variable w : world.

(** The events of the two agents. *)
Definition research_events (query : string) : list event :=
  Render (markdown research_working_html true) ::
  HttpGet (search_url query) 10 ::
  chat_events w (research_messages query (search_text w query)).

Definition chart_events (research_data : pyval) (query : string) : list event :=
  Render (markdown chart_working_html true) ::
  chat_events w (chart_messages w research_data query).

(** The code panel and the download button, which is rendered for a chart
    code that is a string and raises for any other. *)
Definition download_result (chart_code : pyval) : result unit :=
  if isinstance_str chart_code then Ok tt else Raise (invalid_data chart_code).

Definition download_events (chart_code : pyval) (query : string) : list event :=
  if isinstance_str chart_code then
    [Render (download_button "📥 Download Python Code" chart_code
               ("chart_" ++ replace_char " " "_" (take_str 20 query) ++ ".py")
               "text/plain")]
  else [].

Definition chart_panel (chart_code : pyval) (query : string) : list event :=
  ([Render (markdown chart_code_html true);
    Render (code chart_code (Some "python"));
    Render (success "🎉 Chart code generated successfully!");
    Render (info "💡 Copy the code above and run it in your local Python environment.")] ++
   download_events chart_code query)%list.

(** The session state and the events of one run of the pipeline. *)
Definition pipeline_state (query : string) (s : gmap string pyval) : gmap string pyval :=
  let cleared := <["chart_code" := VNone]> (<["research_data" := VNone]> s) in
  let r := research_text w query in
  if truthy r then
    let s1 := <["research_data" := r]> cleared in
    let c := chart_text w r query in
    if truthy c then <["chart_code" := c]> s1 else s1
  else cleared.

Definition chart_step_events (query : string) : list event :=
  let r := research_text w query in
  let c := chart_text w r query in
  ([SetState "research_data" r;
    Render (markdown research_results_html true);
    Render (write r);
    Render (spinner "📊 Generating chart code...")] ++
   chart_events r query ++
   (if truthy c then SetState "chart_code" c :: chart_panel c query else []))%list.

Definition pipeline_events (query : string) : list event :=
  (SetState "research_data" VNone ::
   SetState "chart_code" VNone ::
   Render (spinner "🔍 Researching data...") ::
   research_events query ++
   (if truthy (research_text w query) then chart_step_events query else []))%list.

(** How one run of the pipeline ends: normally, unless it reached the
    download button and the button refused the chart code. *)
Definition pipeline_value (query : string) : result unit :=
  let r := research_text w query in
  let c := chart_text w r query in
  if truthy r then (if truthy c then download_result c else Ok tt) else Ok tt.

Variable inp : inputs.

(** The text in the query box, which [st.text_input] returns: what the user
    entered, or else the selected example, or else nothing. *)
Definition user_query (s : gmap string pyval) : string :=
  default
    (py_str w (default (VStr "") (state (sidebar_panel inp s) !! "selected_query")))
    (text_entered inp).

End Page.

(** The panel of previous results, and the run of [previous_results] as a
    function of the two stored values. *)
Definition previous_events (research chart : pyval) : list event :=
  [Render (markdown "---" false);
   Render (header "📋 Previous Results");
   Render (expander "View Research Data");
   Render (write research);
   Render (expander "View Chart Code");
   Render (code chart (Some "python"))].

Definition previous_outcome (research chart : option pyval) (s : gmap string pyval)
    : outcome unit :=
  match research with
  | None => Out (Raise (no_attribute "research_data")) s []
  | Some r =>
      if truthy r then
        match chart with
        | None => Out (Raise (no_attribute "chart_code")) s []
        | Some c => Out (Ok tt) s (if truthy c then previous_events r c else [])
        end
      else Out (Ok tt) s []
  end.

(** The session state after the first lines of the script. *)
Definition init_state (s : gmap string pyval) : gmap string pyval :=
  let s1 := match s !! "research_data" with
            | Some _ => s
            | None => <["research_data" := VNone]> s
            end in
  match s1 !! "chart_code" with
  | Some _ => s1
  | None => <["chart_code" := VNone]> s1
  end.

(** The generate button, as rendered. *)
Definition generate_box : event :=
  Render (button "🚀 Generate Research & Chart Code" None).

(** What follows the pipeline in a run of [main]: the section of previous
    results, unless the pipeline raised, which ends the run. *)
Definition after_pipeline (w : world) (query : string) (s : gmap string pyval)
    : outcome unit :=
  match pipeline_value w query with
  | Ok _ => previous_outcome (s !! "research_data") (s !! "chart_code") s
  | Raise e => Out (Raise e) s []
  | Stop => Out Stop s []
  end.

(** What the section of previous results shows at the end of a run that
    ran the pipeline. *)
Definition submission_tail (w : world) (query : string) : list event :=
  events (after_pipeline w query (pipeline_state w query ∅)).

(** The events of the first lines of the script. *)
Definition init_events (s : gmap string pyval) : list event :=
  ([Render (page_config "AI Research & Chart Generator" "📊" "wide" "expanded");
    Render (markdown page_css true)] ++
   (match s !! "research_data" with
    | Some _ => []
    | None => [SetState "research_data" VNone]
    end) ++
   (match s !! "chart_code" with
    | Some _ => []
    | None => [SetState "chart_code" VNone]
    end))%list.

(** An HTTP call, that is, a call of the search client or of the wrapper
    that reached [requests]. *)
Definition is_call (e : event) : bool :=
  match e with
  | HttpGet _ _ | HttpPost _ _ _ _ => true
  | _ => false
  end.

(** A display of research text or chart code: [st.write], [st.code] with a
    language, the download button. *)
Definition is_output (e : event) : bool :=
  match e with
  | Render (write _) | Render (code _ (Some _)) | Render (download_button _ _ _ _) => true
  | _ => false
  end.

Definition outputs (evs : list event) : list event := List.filter is_output evs.

(** A write of one of the two stored values. *)
Definition stores (e : event) : bool :=
  match e with
  | SetState key _ => String.eqb key "research_data" || String.eqb key "chart_code"
  | _ => false
  end.

(** The rest of the page: no call, no display of research or code, no write
    of the two stored values. *)
Definition chrome (e : event) : bool :=
  negb (is_call e) && negb (is_output e) && negb (stores e).

(** The session state as the events of a run build it, write after write. *)
Definition is_set (e : event) : bool :=
  match e with SetState _ _ => true | _ => false end.

Definition apply_event (s : gmap string pyval) (e : event) : gmap string pyval :=
  match e with
  | SetState key v => <[key := v]> s
  | _ => s
  end.

Definition replay (s : gmap string pyval) (evs : list event) : gmap string pyval :=
  fold_left apply_event evs s.

(** [P] holds of the session state at every observation of a run, that is,
    whenever a widget is rendered or an HTTP call is made, and at the end of
    the run. *)
Fixpoint at_observations (P : gmap string pyval -> Prop) (s : gmap string pyval)
    (evs : list event) : Prop :=
  match evs with
  | [] => P s
  | e :: rest =>
      (is_set e = false -> P s) /\ at_observations P (apply_event s e) rest
  end.

(** A computation whose final session state is the replay of its events. *)
Definition consistent {A : Type} (m : M A) : Prop :=
  forall s, state (m s) = replay s (events (m s)).

(** Every display of [e] shows this research text or this chart code. *)
Definition shows_only (research chart : pyval) (e : event) : Prop :=
  match e with
  | Render (write v) => v = research
  | Render (code v (Some _)) => v = chart
  | Render (download_button _ v _ _) => v = chart
  | _ => True
  end.

(** The session states a user can reach between two runs: a new session is
    empty, and every interaction runs the script once, in some world with
    some inputs. *)
Inductive reachable : gmap string pyval -> Prop :=
| reach_new : reachable ∅
| reach_run w inp s : reachable s -> reachable (state (script w inp s)).

(** A populated chart code comes with the non-empty research text of the
    same query: for some world and some non-empty query, the stored research
    is what the research agent returned for the query and the stored code is
    what the chart generator returned for this research and this query. *)
Definition chart_has_research (s : gmap string pyval) : Prop :=
  forall c, s !! "chart_code" = Some c -> truthy c = true ->
  exists w query r,
    truthy (VStr query) = true /\
    s !! "research_data" = Some r /\ truthy r = true /\
    r = research_text w query /\ c = chart_text w r query.

(** A run that calls an agent has cleared both values before its first
    call. *)
Definition cleared_before_calls (evs : list event) : Prop :=
  existsb is_call evs = true ->
  exists before after,
    evs = (before ++ SetState "research_data" VNone ::
                     SetState "chart_code" VNone :: after)%list /\
    existsb is_call before = false.

(** A run that calls an agent displays the research and the code of this
    run's query only. *)
Definition fresh_display (w : world) (inp : inputs) (s : gmap string pyval)
    (evs : list event) : Prop :=
  existsb is_call evs = true ->
  let q := user_query w inp s in
  Forall (shows_only (research_text w q) (chart_text w (research_text w q) q)) evs.

(** ** Reading a run *)

(** The HTTP calls of a run, in order. *)
Definition calls (evs : list event) : list event := List.filter is_call evs.

(** The call of [requests.post] that [call_openai_api] makes for these
    messages. *)
Definition chat_request (w : world) (messages : pyval) : event :=
  HttpPost chat_url (chat_headers w (resolve_api_key w)) (chat_data messages) 30.

(** The widgets of the query form: the text box and the generate button
    (the only button without a key). *)
Definition is_query_form (e : event) : bool :=
  match e with
  | Render (text_input _ _ _) | Render (button _ None) => true
  | _ => false
  end.

(** ** The words of the specification *)

(** A search that failed: a transport error or timeout, a status outside
    200..299, or a body that is not JSON. *)
Definition is_2xx (status : Z) : bool := (200 <=? status)%Z && (status <=? 299)%Z.

Inductive failed_search : http_outcome -> Prop :=
| transport_error e : failed_search (Failed e)
| bad_status r : is_2xx (status_code r) = false -> failed_search (Responded r)
| malformed_json r e : payload r = NotJson e -> failed_search (Responded r).

(** A well-formed chat completion: an object whose [choices] is a list whose
    first element is an object whose [message] is an object with a [content]
    field.  The second argument is that content. *)
Inductive well_formed_completion : pyval -> pyval -> Prop :=
| wf_completion fields first rest msg content :
    assoc "choices" fields = Some (VList (VDict first :: rest)) ->
    assoc "message" first = Some (VDict msg) ->
    assoc "content" msg = Some content ->
    well_formed_completion (VDict fields) content.

(** A body of a chat response that is not a well-formed completion. *)
Inductive malformed_body : body -> Prop :=
| not_json e : malformed_body (NotJson e)
| bad_shape res :
    (forall content, ~ well_formed_completion res content) ->
    malformed_body (Json res).

(** URL encoding (percent-encoding, as [urllib.parse.quote] with no safe
    character does it): letters, digits and [-._~] stand for themselves,
    every other character becomes [%XX]. *)
Definition unreserved (c : ascii) : bool :=
  let n := nat_of_ascii c in
  (((48 <=? n) && (n <=? 57)) || ((65 <=? n) && (n <=? 90)) ||
   ((97 <=? n) && (n <=? 122)) ||
   (n =? 45) || (n =? 46) || (n =? 95) || (n =? 126))%nat.

Definition hex_digit (n : nat) : ascii :=
  ascii_of_nat (if n <? 10 then 48 + n else 55 + n)%nat.

Fixpoint url_encode (s : string) : string :=
  match s with
  | EmptyString => EmptyString
  | String c s' =>
      if unreserved c then String c (url_encode s')
      else
        let n := nat_of_ascii c in
        String "%" (String (hex_digit (n / 16)%nat)
                            (String (hex_digit (n mod 16)%nat) (url_encode s')))
  end.

Fixpoint drop_str (n : nat) (s : string) : string :=
  match n, s with
  | S n', String _ s' => drop_str n' s'
  | _, _ => s
  end.

Fixpoint until_amp (s : string) : string :=
  match s with
  | EmptyString => EmptyString
  | String c s' => if Ascii.eqb c "&" then EmptyString else String c (until_amp s')
  end.

(** The value of the parameter [q] of a URL of the search endpoint: the text
    between [?q=] and the next [&]. *)
Definition q_param (url : string) : option string :=
  let lead := "https://api.duckduckgo.com/?q=" in
  if String.prefix lead url
  then Some (until_amp (drop_str (String.length lead) url))
  else None.

(** The lines the specification describes for a status-200 body that is an
    object: the abstract when present and not empty, and the text of the
    related topics among the first three. *)
Definition spec_summary (w : world) (fields : list (string * pyval)) : list string :=
  match assoc "AbstractText" fields with
  | Some a => if truthy a then ["Summary: " ++ py_str w a] else []
  | None => []
  end.

Definition spec_related (w : world) (fields : list (string * pyval)) : list string :=
  match assoc "RelatedTopics" fields with
  | Some (VList topics) => flat_map (topic_block w) (firstn 3 topics)
  | _ => []
  end.

(** [RelatedTopics] is absent, a list or a string: the values [[:3]] accepts
    among those the key can hold. *)
Definition related_sliceable (fields : list (string * pyval)) : Prop :=
  match assoc "RelatedTopics" fields with
  | None | Some (VList _) | Some (VStr _) => True
  | Some _ => False
  end.

(** ** Sample worlds *)

Definition sample_repr (v : pyval) : string := "<" ++ type_name v ++ ">".

(** A world with one answer per endpoint and the given environment key. *)
Definition sample_world (search chat : http_outcome) (key : option string) : world :=
  World (fun _ => key) ∅ (fun _ _ => search) (fun _ _ _ _ => chat) sample_repr.

Definition ok200 (v : pyval) : http_outcome := Responded (Response 200 (Json v)).

Definition completion_body (content : pyval) : pyval :=
  VDict [("choices", VList [VDict [("message", VDict [("content", content)])]])].

Definition offline : http_outcome := Failed (RequestException "connection refused").

Definition paris_body : pyval :=
  VDict [("AbstractText", VStr "Paris is the capital of France.");
         ("RelatedTopics",
          VList [VDict [("Text", VStr "Paris, Texas")];
                 VDict [("Name", VStr "Places")];
                 VDict [("Text", VStr "Paris (mythology)")];
                 VDict [("Text", VStr "Paris Hilton")]])].

(** A body whose abstract is present while [RelatedTopics] is [null]. *)
Definition null_topics_body : pyval :=
  VDict [("AbstractText", VStr "Paris is the capital of France.");
         ("RelatedTopics", VNone)].

Definition quota_body : pyval :=
  VDict [("error", VDict [("message", VStr "quota exceeded")])].

Definition old_session : gmap string pyval :=
  <["chart_code" := VStr "old code"]> (<["research_data" := VStr "old research"]> ∅).

(** A click on the generate button with this text in the query box. *)
Definition click_generate (text : option string) : inputs :=
  Inputs (fun _ => false) text true.

(** A session where the example [Bitcoin ...] was selected earlier. *)
Definition bitcoin : string := "Bitcoin price trend last 6 months".

(** A query with characters outside ASCII among its first twenty. *)
Definition pib : string := "Évolution du PIB français 2020".

Definition selected_session : gmap string pyval :=
  <["selected_query" := VStr bitcoin]> old_session.

Definition chart_world : world :=
  sample_world offline (ok200 (completion_body (VStr "import matplotlib.pyplot as plt")))
               (Some "sk-test").

(** A world whose chat endpoint answers with a JSON table where a text is
    expected. *)
Definition table_world : world :=
  sample_world offline
    (ok200 (completion_body (VDict [("x", VList [VInt 1; VInt 2])])))
    (Some "sk-test").



(** A world whose environment variable is set but empty. *)
Definition empty_variable_world : world :=
  World (fun _ => Some "") {["OPENAI_API_KEY" := VStr "sk-secret"]}
        (fun _ _ => offline) (fun _ _ _ _ => offline) sample_repr.

(** A click on the example button of this query, and nothing else. *)
Definition click_example (q : string) : inputs :=
  Inputs (fun k => String.eqb k q) None false.

(** A rerun with no click and no edit. *)
Definition no_click : inputs := Inputs (fun _ => false) None false.

(** * Properties *)

(** ** The effect monad *)

Lemma bind_run {A B : Type} (m : M A) (k : A -> M B) s a s' evs :
  m s = Out (Ok a) s' evs ->
  bind m k s = Out (value (k a s')) (state (k a s')) (evs ++ events (k a s')).
Proof. intros H. unfold bind. rewrite H. reflexivity. Qed.

Lemma bind_stop {A B : Type} (m : M A) (k : A -> M B) s s' evs :
  m s = Out Stop s' evs -> bind m k s = Out Stop s' evs.
Proof. intros H. unfold bind. rewrite H. reflexivity. Qed.

Lemma bind_raise {A B : Type} (m : M A) (k : A -> M B) s e s' evs :
  m s = Out (Raise e) s' evs -> bind m k s = Out (Raise e) s' evs.
Proof. intros H. unfold bind. rewrite H. reflexivity. Qed.

Lemma outcome_eta {A : Type} (o : outcome A) :
  Out (value o) (state o) (events o) = o.
Proof. destruct o; reflexivity. Qed.

(** ** Strings *)

Lemma append_nonempty (a b : string) : a <> "" -> a ++ b <> "".
Proof. destruct a; [congruence | discriminate]. Qed.

Lemma concat_nonempty (sep x : string) (l : list string) :
  x <> "" -> String.concat sep (x :: l) <> "".
Proof.
  intros Hx. destruct l as [|y l]; simpl; [exact Hx | now apply append_nonempty].
Qed.

(** The characters of a string are as many as [len] counts. *)
Lemma chars_length (s : string) :
  length (chars s) = (str_len s + (if continues s then 1 else 0))%nat.
Proof.
  induction s as [|c s IH]; [reflexivity |].
  cbn [chars str_len continues].
  destruct (chars s) as [|ch rest] eqn:Hchars.
  - destruct s as [|c' s]; [| cbn [chars] in Hchars;
                               destruct (chars s); [| destruct (continues s)];
                               discriminate].
    cbn. destruct (continuation c); reflexivity.
  - cbn [length] in IH.
    destruct (continues s), (continuation c); cbn [length]; lia.
Qed.

(** ** The operations on values never stop the script *)

Lemma py_in_dict k fields :
  py_in k (VDict fields) =
  Ok (match assoc k fields with Some _ => true | None => false end).
Proof. reflexivity. Qed.

Lemma getitem_not_stop v k : getitem v k <> Stop.
Proof. destruct v; simpl; try discriminate. destruct (assoc k fields); discriminate. Qed.

Lemma getitem0_not_stop v : getitem0 v <> Stop.
Proof.
  destruct v as [| | | |s|[|x l]|]; simpl; try discriminate.
  destruct (chars s); discriminate.
Qed.

Lemma py_in_not_stop k v : py_in k v <> Stop.
Proof. destruct v; simpl; discriminate. Qed.

Lemma slice3_not_stop v : slice3 v <> Stop.
Proof. destruct v; simpl; discriminate. Qed.

Lemma response_json_not_stop r : response_json r <> Stop.
Proof. unfold response_json. destruct (payload r); discriminate. Qed.

(** ** The search client *)

Section SearchClient.

Variable w : world.

Lemma related_topics_spec topics results :
  related_topics w topics results = Ok (results ++ flat_map (topic_block w) topics)%list.
Proof.
  revert results. induction topics as [|topic rest IH]; intros results; simpl.
  - now rewrite app_nil_r.
  - destruct topic; simpl; try apply IH.
    destruct (assoc "Text" fields) as [t|]; simpl.
    + rewrite IH. now rewrite <- app_assoc.
    + apply IH.
Qed.

Lemma topic_block_nonempty topic : Forall (fun b => b <> "") (topic_block w topic).
Proof.
  destruct topic; simpl; try constructor.
  destruct (assoc "Text" fields); constructor; [discriminate | constructor].
Qed.

Lemma related_blocks_nonempty topics :
  Forall (fun b => b <> "") (flat_map (topic_block w) topics).
Proof.
  induction topics as [|t rest IH]; simpl; [constructor |].
  apply Forall_app. split; [apply topic_block_nonempty | exact IH].
Qed.

Lemma join_results_nonempty query results :
  Forall (fun b => b <> "") results -> join_results query results <> "".
Proof.
  intros H. destruct results as [|x l]; simpl; [discriminate |].
  apply concat_nonempty. now inversion H.
Qed.

Lemma extract_results_cases query data :
  (exists text, extract_results w query data = Ok text /\ text <> "") \/
  (exists e, extract_results w query data = Raise e).
Proof.
  unfold extract_results.
  destruct (py_in "AbstractText" data) as [has_abs|e|] eqn:Hin; simpl;
    [| right; eauto | now apply py_in_not_stop in Hin].
  set (summary := if has_abs then _ else _).
  assert (Hs : (exists l, summary = Ok l /\ Forall (fun b => b <> "") l) \/
               (exists e, summary = Raise e)).
  { subst summary. destruct has_abs; [| left; eexists; split; [reflexivity | constructor]].
    destruct (getitem data "AbstractText") as [a|e|] eqn:Hg; simpl;
      [| right; eauto | now apply getitem_not_stop in Hg].
    left. eexists; split; [reflexivity |].
    destruct (truthy a); constructor; [discriminate | constructor]. }
  destruct Hs as [(l & -> & Hl) | (e & ->)]; simpl; [| right; eauto].
  destruct (py_in "RelatedTopics" data) as [has_rel|e|] eqn:Hin2; simpl;
    [| right; eauto | now apply py_in_not_stop in Hin2].
  destruct has_rel; simpl.
  - destruct (getitem data "RelatedTopics") as [rt|e|] eqn:Hg; simpl;
      [| right; eauto | now apply getitem_not_stop in Hg].
    destruct (slice3 rt) as [topics|e|] eqn:Hsl; simpl;
      [| right; eauto | now apply slice3_not_stop in Hsl].
    rewrite related_topics_spec. simpl. left. eexists; split; [reflexivity |].
    apply (join_results_nonempty query).
    apply Forall_app. split; [exact Hl | apply related_blocks_nonempty].
  - left. eexists; split; [reflexivity |]. now apply (join_results_nonempty query).
Qed.

Lemma search_non200_nonempty query : search_non200 query <> "".
Proof. discriminate. Qed.

Lemma search_failed_nonempty query : search_failed query <> "".
Proof. discriminate. Qed.

(** [search_web] returns a non-empty string, leaves the session state alone
    and calls [requests.get] once, whatever the endpoint does. *)
Lemma search_web_run query s :
  search_web w query s = Out (Ok (search_text w query)) s [HttpGet (search_url query) 10]
  /\ search_text w query <> "".
Proof.
  unfold search_text, search_web, try_except, bind, requests_get, lift, ret. simpl.
  destruct (http_get w (search_url query) 10) as [r|e]; simpl;
    [| split; [reflexivity | discriminate]].
  destruct (status_code r =? 200)%Z; simpl; [| split; [reflexivity | discriminate]].
  destruct (response_json r) as [data|e|] eqn:Hj; simpl;
    [| split; [reflexivity | discriminate] | now apply response_json_not_stop in Hj].
  destruct (extract_results_cases query data) as [(text & -> & Hne) | (e & ->)]; simpl;
    split; (reflexivity || assumption || discriminate).
Qed.

End SearchClient.

Lemma prefix_refl (s : string) : String.prefix s s = true.
Proof.
  induction s as [|c s IH]; simpl; [reflexivity |].
  destruct (ascii_dec c c); [exact IH | congruence].
Qed.

Lemma contains_refl (s : string) : contains s s = true.
Proof.
  destruct s as [|c s]; [reflexivity |].
  change (String.prefix (String c s) (String c s) || contains (String c s) s = true).
  now rewrite prefix_refl.
Qed.

Lemma contains_app_r (p s : string) : contains s (p ++ s) = true.
Proof.
  induction p as [|c p IH]; simpl; [apply contains_refl |].
  rewrite IH. apply orb_true_r.
Qed.

Lemma is_2xx_200 status : is_2xx status = false -> (status =? 200)%Z = false.
Proof. unfold is_2xx. intros H. apply Z.eqb_neq. intros ->. discriminate. Qed.

(** C1. For every query and every failed search (a transport error or
    timeout, a response with a status outside 200..299, a body that is not
    JSON), [search_web] returns one of its two fallback texts; and on every
    input at all it returns a non-empty string and raises nothing. *)
Theorem search_web_total_fallback (w : world) (query : string) (s : gmap string pyval) :
  (exists text, value (search_web w query s) = Ok text /\ text <> "") /\
  (failed_search (http_get w (search_url query) 10) ->
   (value (search_web w query s) = Ok (search_non200 query) \/
    value (search_web w query s) = Ok (search_failed query)) /\
   search_non200 query <> "" /\ search_failed query <> "").
Proof.
  split.
  - destruct (search_web_run w query s) as [Hrun Hne].
    exists (search_text w query). rewrite Hrun. now split.
  - intros Hfail.
    split; [| split; [apply search_non200_nonempty | apply search_failed_nonempty]].
    unfold search_web, try_except, bind, requests_get, lift, ret. simpl.
    inversion Hfail as [e He | r H2xx Hr | r e Hp Hr]; simpl.
    + now right.
    + rewrite (is_2xx_200 _ H2xx). now left.
    + destruct (status_code r =? 200)%Z; simpl; [| now left].
      unfold response_json. rewrite Hp. now right.
Qed.

Lemma search_web_total_fallback_witness :
  (value (search_web (sample_world offline offline None) "UK GDP" ∅)
     = Ok (search_non200 "UK GDP") \/
   value (search_web (sample_world offline offline None) "UK GDP" ∅)
     = Ok (search_failed "UK GDP")) /\
  search_non200 "UK GDP" <> "" /\ search_failed "UK GDP" <> "".
Proof.
  exact (proj2 (search_web_total_fallback (sample_world offline offline None) "UK GDP" ∅)
               (transport_error _)).
Defined.

(** *** The request URL *)

Lemma unreserved_not_amp c : unreserved c = true -> Ascii.eqb c "&" = false.
Proof.
  intros H. destruct (Ascii.eqb_spec c "&") as [-> |]; [| reflexivity].
  vm_compute in H. discriminate.
Qed.

Lemma until_amp_unreserved (q rest : string) :
  forallb unreserved (list_ascii_of_string q) = true ->
  until_amp (q ++ String "&" rest) = q.
Proof.
  induction q as [|c q IH]; simpl; [reflexivity |].
  intros H. apply andb_prop in H as [Hc Hq].
  rewrite (unreserved_not_amp c Hc). now rewrite IH.
Qed.

Lemma url_encode_unreserved (q : string) :
  forallb unreserved (list_ascii_of_string q) = true -> url_encode q = q.
Proof.
  induction q as [|c q IH]; simpl; [reflexivity |].
  intros H. apply andb_prop in H as [Hc Hq].
  rewrite Hc. now rewrite IH.
Qed.

Lemma prefix_app (lead rest : string) : String.prefix lead (lead ++ rest) = true.
Proof.
  induction lead as [|c lead IH]; simpl; [now destruct rest |].
  destruct (ascii_dec c c); [exact IH | congruence].
Qed.

Lemma drop_str_app (lead rest : string) :
  drop_str (String.length lead) (lead ++ rest) = rest.
Proof. induction lead as [|c lead IH]; simpl; [now destruct rest | exact IH]. Qed.

Lemma q_param_search_url (q : string) :
  q_param (search_url q) = Some (until_amp (q ++ "&format=json&no_redirect=1")).
Proof. unfold q_param, search_url. now rewrite prefix_app, drop_str_app. Qed.

(** C6, as the code has it.  [search_web] calls [requests.get] once, with
    timeout 10, on the URL made of the endpoint, the query as it is and the
    two fixed flags.  When the query has unreserved characters only, it is
    its own URL encoding and the parameter [q] of the URL carries it. *)
Theorem search_web_request_url (w : world) (query : string) (s : gmap string pyval) :
  events (search_web w query s) =
    [HttpGet ("https://api.duckduckgo.com/?q=" ++ query ++ "&format=json&no_redirect=1") 10]
  /\ (forallb unreserved (list_ascii_of_string query) = true ->
      q_param (search_url query) = Some (url_encode query)).
Proof.
  split.
  - destruct (search_web_run w query s) as [Hrun _]. now rewrite Hrun.
  - intros H. rewrite q_param_search_url, url_encode_unreserved by exact H.
    f_equal. now apply until_amp_unreserved.
Qed.

Lemma search_web_request_url_witness :
  q_param (search_url "Bitcoin") = Some (url_encode "Bitcoin").
Proof.
  exact (proj2 (search_web_request_url (sample_world offline offline None) "Bitcoin" ∅)
               eq_refl).
Defined.

(** C6, as the specification states it, fails on a query with [&]: the URL
    requested for [R&D] has [R] as its parameter [q], while the URL encoding
    of the query is [R%26D]. *)
Lemma search_url_ampersand_counterexample :
  let w := sample_world offline offline None in
  events (search_web w "R&D" ∅) =
    [HttpGet "https://api.duckduckgo.com/?q=R&D&format=json&no_redirect=1" 10]
  /\ q_param "https://api.duckduckgo.com/?q=R&D&format=json&no_redirect=1" = Some "R"
  /\ url_encode "R&D" = "R%26D"
  /\ q_param "https://api.duckduckgo.com/?q=R&D&format=json&no_redirect=1"
       <> Some (url_encode "R&D").
Proof. repeat split. discriminate. Qed.

(** *** The status-200 branch *)

Lemma contains_app_l (p s rest : string) :
  contains s rest = true -> contains s (p ++ rest) = true.
Proof.
  intros H. induction p as [|c p IH]; [exact H |].
  change (String.prefix s (String c (p ++ rest)) || contains s (p ++ rest) = true).
  rewrite IH. apply orb_true_r.
Qed.

Lemma contains_prefix (s rest : string) : contains s (s ++ rest) = true.
Proof.
  destruct s as [|c s]; [now destruct rest |].
  change (String.prefix (String c s) (String c s ++ rest)
          || contains (String c s) (s ++ rest) = true).
  now rewrite prefix_app.
Qed.

Lemma contains_middle (p s rest : string) : contains s (p ++ s ++ rest) = true.
Proof. apply contains_app_l, contains_prefix. Qed.

Lemma topic_block_length w topic : length (topic_block w topic) <= 1.
Proof.
  destruct topic; simpl; try lia. destruct (assoc "Text" fields); simpl; lia.
Qed.

Lemma related_blocks_length w topics :
  length (flat_map (topic_block w) topics) <= length topics.
Proof.
  induction topics as [|t rest IH]; simpl; [lia |].
  rewrite length_app. pose proof (topic_block_length w t). lia.
Qed.

Lemma spec_related_length w fields : length (spec_related w fields) <= 3.
Proof.
  unfold spec_related. destruct (assoc "RelatedTopics" fields) as [[]|]; simpl; try lia.
  etransitivity; [apply related_blocks_length |]. apply firstn_le_length.
Qed.

Lemma characters_no_block w (cs : list string) :
  flat_map (topic_block w) (map VStr cs) = [].
Proof. induction cs; simpl; auto. Qed.

(** On a body that is an object whose [RelatedTopics] can be sliced, the
    status-200 branch returns the lines of the specification, joined. *)
Lemma extract_results_spec w query fields :
  related_sliceable fields ->
  extract_results w query (VDict fields) =
    Ok (join_results query (spec_summary w fields ++ spec_related w fields)%list).
Proof.
  unfold related_sliceable, extract_results, spec_summary, spec_related.
  rewrite !py_in_dict. simpl.
  destruct (assoc "RelatedTopics" fields) as [rt|];
    [destruct rt; intros Hrel; try contradiction |];
    destruct (assoc "AbstractText" fields) as [a|]; simpl;
    rewrite ?related_topics_spec; simpl;
    rewrite ?characters_no_block, ?app_nil_r; reflexivity.
Qed.

(** On a body that is an object whose [RelatedTopics] cannot be sliced
    ([null], a boolean, a number, an object), the status-200 branch
    raises. *)
Lemma extract_results_unsliceable w query fields :
  ~ related_sliceable fields ->
  exists e, extract_results w query (VDict fields) = Raise e.
Proof.
  unfold related_sliceable, extract_results.
  rewrite !py_in_dict. simpl.
  destruct (assoc "RelatedTopics" fields) as [rt|]; intros Hrel;
    [| now contradiction Hrel].
  destruct (assoc "AbstractText" fields) as [a|]; simpl;
    destruct rt; simpl; try (now contradiction Hrel); eauto.
Qed.

(** C7, as the code has it.  For a status-200 response whose body is an
    object.  When its [RelatedTopics] is absent, a list or a string,
    [search_web] returns, joined by blank lines, [Summary: ...] for an
    abstract that is present and not empty, and [Related: ...] for the text
    of those of the first three related topics that have one (at most three
    lines); with no such line it returns a placeholder that contains the
    query.  When its [RelatedTopics] is anything else ([null], a boolean, a
    number, an object), slicing it raises and [search_web] returns the text
    of its exception handler, which contains the query, whatever the
    abstract is. *)
Theorem search_web_200_lines (w : world) (query : string) (s : gmap string pyval)
    (r : response) (fields : list (string * pyval)) :
  http_get w (search_url query) 10 = Responded r ->
  status_code r = 200%Z ->
  payload r = Json (VDict fields) ->
  let blocks := (spec_summary w fields ++ spec_related w fields)%list in
  (related_sliceable fields ->
   value (search_web w query s) =
     Ok (match blocks with
         | [] => "Basic search completed for: " ++ query
         | _ => String.concat (nl ++ nl) blocks
         end)
   /\ (length (spec_related w fields) <= 3)%nat
   /\ (blocks = [] -> contains query ("Basic search completed for: " ++ query) = true))
  /\ (~ related_sliceable fields ->
      value (search_web w query s) =
        Ok ("Web search for '" ++ query ++
            "' completed. Manual research may be needed for specific data.")
      /\ contains query (search_failed query) = true).
Proof.
  intros Hget Hstatus Hbody blocks.
  assert (Hrun : forall res,
             extract_results w query (VDict fields) = res -> res <> Stop ->
             value (search_web w query s) =
               match res with Ok text => Ok text | _ => Ok (search_failed query) end).
  { intros res <- Hres.
    unfold search_web, try_except, bind, requests_get, lift, ret. simpl.
    rewrite Hget. simpl. rewrite Hstatus. simpl.
    unfold response_json. rewrite Hbody. simpl.
    now destruct (extract_results w query (VDict fields)). }
  split.
  - intros Hrel. split; [| split].
    + now rewrite (Hrun _ (extract_results_spec w query fields Hrel)).
    + apply spec_related_length.
    + intros _. apply contains_app_r.
  - intros Hrel. split; [| apply contains_middle].
    destruct (extract_results_unsliceable w query fields Hrel) as (e & He).
    now rewrite (Hrun _ He).
Qed.

Lemma search_web_200_lines_witness :
  value (search_web (sample_world (ok200 paris_body) offline None) "Paris" ∅) =
    Ok ("Summary: Paris is the capital of France." ++ nl ++ nl ++
        "Related: Paris, Texas" ++ nl ++ nl ++ "Related: Paris (mythology)")
  /\ value (search_web (sample_world (ok200 null_topics_body) offline None) "Paris" ∅) =
       Ok "Web search for 'Paris' completed. Manual research may be needed for specific data.".
Proof.
  split.
  - exact (proj1 (proj1 (search_web_200_lines (sample_world (ok200 paris_body) offline None)
                           "Paris" ∅ (Response 200 (Json paris_body)) _
                           eq_refl eq_refl eq_refl) I)).
  - exact (proj1 (proj2 (search_web_200_lines
                           (sample_world (ok200 null_topics_body) offline None)
                           "Paris" ∅ (Response 200 (Json null_topics_body)) _
                           eq_refl eq_refl eq_refl) (fun H => H))).
Defined.

(** C7, as the specification states it, fails on a status-200 body whose
    abstract is present while [RelatedTopics] is [null]: slicing [None]
    raises, and the fallback text, without the abstract, is returned. *)
Lemma search_web_null_topics_counterexample :
  let data := VDict [("AbstractText", VStr "Paris is the capital of France.");
                     ("RelatedTopics", VNone)] in
  let w := sample_world (ok200 data) offline None in
  http_get w (search_url "Paris") 10 = Responded (Response 200 (Json data))
  /\ value (search_web w "Paris" ∅) = Ok (search_failed "Paris")
  /\ contains "Paris is the capital of France." (search_failed "Paris") = false.
Proof. repeat split. Qed.

(** ** The chat-completion wrapper *)

Lemma first_choice_content_not_stop res : first_choice_content res <> Stop.
Proof.
  unfold first_choice_content.
  destruct (getitem res "choices") as [choices|e|] eqn:H1; simpl;
    [| discriminate | now apply getitem_not_stop in H1].
  destruct (getitem0 choices) as [first|e|] eqn:H2; simpl;
    [| discriminate | now apply getitem0_not_stop in H2].
  destruct (getitem first "message") as [msg|e|] eqn:H3; simpl;
    [| discriminate | now apply getitem_not_stop in H3].
  apply getitem_not_stop.
Qed.

Lemma getitem_ok v k x :
  getitem v k = Ok x -> exists fields, v = VDict fields /\ assoc k fields = Some x.
Proof.
  destruct v; simpl; try discriminate.
  destruct (assoc k fields) eqn:H; [| discriminate].
  intros [= <-]. eauto.
Qed.

Lemma getitem0_dict_ok v fields :
  getitem0 v = Ok (VDict fields) -> exists rest, v = VList (VDict fields :: rest).
Proof.
  destruct v as [| | | |s|[|x l]|]; simpl; try discriminate.
  - destruct (chars s); discriminate.
  - intros [= ->]. eauto.
Qed.

(** The lookup succeeds exactly on the well-formed completions. *)
Lemma first_choice_content_ok res content :
  first_choice_content res = Ok content <-> well_formed_completion res content.
Proof.
  split.
  - unfold first_choice_content. intros H.
    destruct (getitem res "choices") as [choices|e|] eqn:H1; simpl in H; try discriminate.
    destruct (getitem0 choices) as [first|e|] eqn:H2; simpl in H; try discriminate.
    destruct (getitem first "message") as [msg|e|] eqn:H3; simpl in H; try discriminate.
    apply getitem_ok in H1 as (fields & -> & Hc).
    apply getitem_ok in H3 as (ffirst & -> & Hm).
    apply getitem_ok in H as (fmsg & -> & Hcontent).
    apply getitem0_dict_ok in H2 as (rest & ->).
    econstructor; eassumption.
  - intros [fields first rest msg c Hc Hm Hcontent].
    unfold first_choice_content. simpl. rewrite Hc. simpl. rewrite Hm. simpl.
    now rewrite Hcontent.
Qed.

(** [call_openai_api] returns a value and leaves the session state alone,
    whatever the credential and the endpoint are. *)
Lemma call_openai_api_run w messages s :
  call_openai_api w messages s =
    Out (Ok (completion w messages)) s (chat_events w messages).
Proof.
  unfold completion, chat_events, call_openai_api, try_except, bind, requests_post,
    lift, ret. simpl.
  destruct (negb (truthy (resolve_api_key w))); simpl; [reflexivity |].
  destruct (http_post w _ _ _ _) as [r|e]; simpl; [| reflexivity].
  destruct (status_code r =? 200)%Z; simpl; [| reflexivity].
  destruct (response_json r) as [res|e|] eqn:Hj; simpl;
    [| reflexivity | now apply response_json_not_stop in Hj].
  destruct (first_choice_content res) as [c|e|] eqn:Hc; simpl;
    [reflexivity | reflexivity | now apply first_choice_content_not_stop in Hc].
Qed.

Lemma no_environment_no_secret w :
  getenv w "OPENAI_API_KEY" = None ->
  secrets w !! "OPENAI_API_KEY" = None ->
  resolve_api_key w = VStr "".
Proof.
  intros Henv Hsec. unfold resolve_api_key, os_getenv, secrets_get, py_or.
  rewrite Henv, Hsec. reflexivity.
Qed.

(** C2. When the credential is neither in the environment nor in the secrets
    store, [call_openai_api] makes no request (its list of events is empty)
    and returns the message that says the key was not found. *)
Theorem no_credential_no_request (w : world) (messages : pyval) (s : gmap string pyval) :
  getenv w "OPENAI_API_KEY" = None ->
  secrets w !! "OPENAI_API_KEY" = None ->
  call_openai_api w messages s = Out (Ok (VStr key_not_found)) s []
  /\ contains "key not found" key_not_found = true.
Proof.
  intros Henv Hsec. split; [| reflexivity].
  unfold call_openai_api, try_except.
  rewrite (no_environment_no_secret w Henv Hsec). reflexivity.
Qed.

Lemma no_credential_no_request_witness :
  call_openai_api (sample_world offline (ok200 (completion_body (VStr "text"))) None)
                  (VList [message "user" "hello"]) ∅
    = Out (Ok (VStr key_not_found)) ∅ []
  /\ contains "key not found" key_not_found = true.
Proof.
  exact (no_credential_no_request
           (sample_world offline (ok200 (completion_body (VStr "text"))) None)
           (VList [message "user" "hello"]) ∅ eq_refl eq_refl).
Defined.

(** C3. With a credential, when the chat endpoint answers 200 with a
    well-formed completion, [call_openai_api] returns the content of the
    first choice's message, as it is. *)
Theorem chat_content_passthrough (w : world) (messages : pyval) (s : gmap string pyval)
    (res content : pyval) :
  has_api_key w = true ->
  http_post w chat_url (chat_headers w (resolve_api_key w)) (chat_data messages) 30
    = Responded (Response 200 (Json res)) ->
  well_formed_completion res content ->
  value (call_openai_api w messages s) = Ok content.
Proof.
  intros Hkey Hpost Hwf. apply first_choice_content_ok in Hwf.
  unfold has_api_key in Hkey.
  unfold call_openai_api, try_except, bind, requests_post, lift, ret. simpl.
  rewrite Hkey. simpl. rewrite Hpost. simpl. rewrite Hwf. reflexivity.
Qed.

Lemma chat_content_passthrough_witness :
  value (call_openai_api
           (sample_world offline (ok200 (completion_body (VStr "import matplotlib")))
                         (Some "sk-test"))
           (VList [message "user" "plot"]) ∅)
    = Ok (VStr "import matplotlib").
Proof.
  apply (chat_content_passthrough _ _ _ (completion_body (VStr "import matplotlib")));
    [reflexivity | reflexivity |].
  eapply wf_completion; reflexivity.
Defined.

(** C10.  [call_openai_api] returns a value on every input.  With a
    credential, when the chat endpoint answers 200 with a body that is not a
    well-formed completion, parsing the body or looking up the content raises
    an exception, and the wrapper returns the error text that embeds
    [str(e)]. *)
Theorem malformed_completion_error_text (w : world) (messages : pyval)
    (s : gmap string pyval) :
  (exists v, value (call_openai_api w messages s) = Ok v) /\
  forall r,
    has_api_key w = true ->
    http_post w chat_url (chat_headers w (resolve_api_key w)) (chat_data messages) 30
      = Responded r ->
    status_code r = 200%Z ->
    malformed_body (payload r) ->
    exists e,
      rbind (response_json r) first_choice_content = Raise e /\
      value (call_openai_api w messages s)
        = Ok (VStr ("Error calling OpenAI API: " ++ str_exn e)).
Proof.
  split.
  - rewrite call_openai_api_run. simpl. eauto.
  - intros r Hkey Hpost Hstatus Hbad. unfold has_api_key in Hkey.
    unfold call_openai_api, try_except, bind, requests_post, lift, ret. simpl.
    rewrite Hkey. simpl. rewrite Hpost. simpl. rewrite Hstatus. simpl.
    unfold response_json.
    inversion Hbad as [e He | res Hshape Hres]; simpl.
    + exists e. now split.
    + destruct (first_choice_content res) as [c|e|] eqn:Hc; simpl.
      * apply first_choice_content_ok in Hc. now apply Hshape in Hc.
      * exists e. now split.
      * now apply first_choice_content_not_stop in Hc.
Qed.

Lemma malformed_completion_error_text_witness :
  exists e,
    rbind (response_json (Response 200 (Json quota_body))) first_choice_content = Raise e /\
    value (call_openai_api
             (sample_world offline (ok200 quota_body) (Some "sk-test"))
             (VList [message "user" "plot"]) ∅)
      = Ok (VStr ("Error calling OpenAI API: " ++ str_exn e)).
Proof.
  apply (proj2 (malformed_completion_error_text
                  (sample_world offline (ok200 quota_body) (Some "sk-test"))
                  (VList [message "user" "plot"]) ∅));
    [reflexivity | reflexivity | reflexivity |].
  apply bad_shape. intros content H. inversion H. discriminate.
Defined.

(** ** The page *)

Ltac mred :=
  cbn beta iota zeta delta
    [value state events app st emit ret when set_state lift st_button st_stop].

Lemma get_state_some key (s : gmap string pyval) v :
  s !! key = Some v -> get_state key s = Out (Ok v) s [].
Proof. intros H. unfold get_state. now rewrite H. Qed.

Ltac mstep tac := mred; erewrite bind_run by (first [tac | reflexivity]); mred.

Ltac solve_lookup :=
  repeat (rewrite lookup_insert_ne by done);
  first [apply lookup_insert_eq | eassumption].

Ltac mdone := mred; rewrite <- ?app_assoc, ?app_nil_r; mred; reflexivity.

Section PageRuns.

Variable w : world.

Lemma research_agent_run query s :
  research_agent w query s = Out (Ok (research_text w query)) s (research_events w query).
Proof.
  unfold research_text, research_events, research_agent.
  repeat mstep ltac:(first [apply search_web_run | apply call_openai_api_run]).
  mdone.
Qed.

Lemma chart_generator_agent_run research_data query s :
  chart_generator_agent w research_data query s =
    Out (Ok (chart_text w research_data query)) s (chart_events w research_data query).
Proof.
  unfold chart_text, chart_events, chart_generator_agent.
  repeat mstep ltac:(apply call_openai_api_run).
  mdone.
Qed.

Lemma show_chart_code_run query (s : gmap string pyval) c :
  s !! "chart_code" = Some c ->
  show_chart_code query s = Out (download_result c) s (chart_panel c query).
Proof.
  intros H.
  unfold show_chart_code, chart_panel, download_name, download_result, download_events,
    st_download_button.
  repeat mstep ltac:(apply get_state_some, H).
  destruct (isinstance_str c); mdone.
Qed.

Ltac pipeline_step :=
  mstep ltac:(first [ apply research_agent_run
                    | apply chart_generator_agent_run
                    | apply get_state_some; solve_lookup
                    | apply show_chart_code_run, lookup_insert_eq ]).

Lemma run_pipeline_run query s :
  run_pipeline w query s =
    Out (pipeline_value w query) (pipeline_state w query s) (pipeline_events w query).
Proof.
  unfold run_pipeline, pipeline_value, pipeline_state, pipeline_events, chart_step_events.
  do 4 pipeline_step.
  destruct (truthy (research_text w query)) eqn:Hr.
  - do 2 pipeline_step. rewrite Hr. mred.
    unfold show_research_and_chart.
    do 6 pipeline_step.
    destruct (truthy (chart_text w (research_text w query) query)) eqn:Hc.
    + do 2 pipeline_step. rewrite Hc. mred.
      erewrite show_chart_code_run by apply lookup_insert_eq. mdone.
    + do 2 pipeline_step. mdone.
  - do 2 pipeline_step. mdone.
Qed.

End PageRuns.

Lemma previous_results_run s :
  previous_results s = previous_outcome (s !! "research_data") (s !! "chart_code") s.
Proof.
  unfold previous_results, previous_outcome, no_attribute, previous_events.
  destruct (s !! "research_data") as [r|] eqn:Hr;
    [| apply bind_raise; unfold get_state; now rewrite Hr].
  mstep ltac:(apply get_state_some, Hr).
  destruct (truthy r); [| mstep fail; mdone].
  destruct (s !! "chart_code") as [c|] eqn:Hc.
  - mstep ltac:((erewrite bind_run by (apply get_state_some, Hc)); reflexivity).
    destruct (truthy c); [| mdone].
    repeat mstep ltac:(first [apply get_state_some, Hr | apply get_state_some, Hc]).
    mdone.
  - erewrite bind_raise
      by (apply bind_raise; unfold get_state; rewrite Hc; reflexivity).
    mdone.
Qed.

Section Sidebar.

Variable inp : inputs.

Lemma example_buttons_run queries s :
  value (example_buttons inp queries s) = Ok tt /\
  (forall k, k <> "selected_query" ->
             state (example_buttons inp queries s) !! k = s !! k) /\
  forallb chrome (events (example_buttons inp queries s)) = true.
Proof.
  revert s. induction queries as [|q rest IH]; intros s; [now repeat split |].
  cbn [example_buttons].
  mstep fail.
  destruct (example_clicked inp q); mstep fail.
  - destruct (IH (<["selected_query" := VStr q]> s)) as (Hv & Hs & He).
    repeat split; [exact Hv | | exact He].
    intros k Hk. rewrite Hs by exact Hk. now rewrite lookup_insert_ne.
  - destruct (IH s) as (Hv & Hs & He).
    repeat split; [exact Hv | exact Hs | exact He].
Qed.

Lemma example_buttons_selected queries (s1 s2 : gmap string pyval) :
  s1 !! "selected_query" = s2 !! "selected_query" ->
  state (example_buttons inp queries s1) !! "selected_query" =
  state (example_buttons inp queries s2) !! "selected_query".
Proof.
  revert s1 s2. induction queries as [|q rest IH]; intros s1 s2 H; [exact H |].
  cbn [example_buttons].
  destruct (example_clicked inp q); repeat mstep fail; apply IH;
    [now rewrite !lookup_insert_eq | exact H].
Qed.

Lemma sidebar_panel_run s :
  value (sidebar_panel inp s) = Ok tt /\
  (forall k, k <> "selected_query" -> state (sidebar_panel inp s) !! k = s !! k) /\
  forallb chrome (events (sidebar_panel inp s)) = true.
Proof.
  unfold sidebar_panel. repeat mstep fail.
  destruct (example_buttons_run example_queries s) as (Hv & Hs & He).
  repeat split; [exact Hv | exact Hs | exact He].
Qed.

Lemma sidebar_panel_selected (s1 s2 : gmap string pyval) :
  s1 !! "selected_query" = s2 !! "selected_query" ->
  state (sidebar_panel inp s1) !! "selected_query" =
  state (sidebar_panel inp s2) !! "selected_query".
Proof.
  intros H. unfold sidebar_panel. repeat mstep fail.
  now apply example_buttons_selected.
Qed.

End Sidebar.

Lemma run_eta {A : Type} (m : M A) s a :
  value (m s) = Ok a -> m s = Out (Ok a) (state (m s)) (events (m s)).
Proof. intros H. rewrite <- H. symmetry. apply outcome_eta. Qed.

Lemma previous_outcome_state research chart s :
  state (previous_outcome research chart s) = s.
Proof.
  unfold previous_outcome. destruct research as [r|]; [| reflexivity].
  destruct (truthy r); [| reflexivity]. now destruct chart.
Qed.

Lemma previous_outcome_value r c s :
  value (previous_outcome (Some r) (Some c) s) = Ok tt.
Proof. unfold previous_outcome. now destruct (truthy r). Qed.

Lemma previous_outcome_quiet research chart s :
  existsb is_call (events (previous_outcome research chart s)) = false.
Proof.
  unfold previous_outcome. destruct research as [r|]; [| reflexivity].
  destruct (truthy r); [| reflexivity]. destruct chart as [c|]; [| reflexivity].
  now destruct (truthy c).
Qed.

Lemma previous_outcome_shows r c s :
  Forall (shows_only r c) (events (previous_outcome (Some r) (Some c) s)).
Proof.
  unfold previous_outcome. destruct (truthy r); [| constructor].
  destruct (truthy c); [| constructor].
  unfold previous_events. repeat constructor.
Qed.

Lemma shows_only_quiet r c e : is_output e = false -> shows_only r c e.
Proof.
  destruct e as [| | |wd]; try exact (fun _ => I).
  destruct wd; try exact (fun _ => I); try discriminate.
  destruct language; [discriminate | exact (fun _ => I)].
Qed.

Lemma chrome_shows r c l : forallb chrome l = true -> Forall (shows_only r c) l.
Proof.
  induction l as [|e l IH]; [constructor |]. cbn [forallb]. intros H.
  apply andb_prop in H as [He Hl]. constructor; [| exact (IH Hl)].
  apply shows_only_quiet. unfold chrome in He.
  apply andb_prop in He as [He _]. apply andb_prop in He as [_ He].
  now destruct (is_output e).
Qed.

Lemma chrome_no_call l : forallb chrome l = true -> existsb is_call l = false.
Proof.
  induction l as [|e l IH]; [reflexivity |]. simpl. intros H.
  apply andb_prop in H as [He Hl]. rewrite (IH Hl).
  unfold chrome in He. apply andb_prop in He as [He _].
  apply andb_prop in He as [He _]. now destruct (is_call e).
Qed.

Lemma chrome_no_output l : forallb chrome l = true -> outputs l = [].
Proof.
  unfold outputs. induction l as [|e l IH]; [reflexivity |].
  cbn [forallb List.filter]. intros H.
  apply andb_prop in H as [He Hl]. unfold chrome in He.
  apply andb_prop in He as [He _]. apply andb_prop in He as [_ He].
  destruct (is_output e); [discriminate | exact (IH Hl)].
Qed.

Section MainRuns.

Variable w : world.
Variable inp : inputs.

Lemma chat_events_quiet messages :
  Forall (fun e => is_output e = false) (chat_events w messages).
Proof.
  unfold chat_events, call_openai_api, try_except, bind, requests_post, lift, ret. simpl.
  destruct (negb (truthy (resolve_api_key w))); simpl; [constructor |].
  destruct (http_post w _ _ _ _) as [r|e]; simpl; [| repeat constructor].
  destruct (status_code r =? 200)%Z; simpl; [| repeat constructor].
  destruct (response_json r) as [res|e|]; simpl; try (repeat constructor).
  destruct (first_choice_content res); simpl; repeat constructor.
Qed.

Lemma chat_events_show r c messages :
  Forall (shows_only r c) (chat_events w messages).
Proof.
  induction (chat_events_quiet messages) as [|e l He _ IH]; constructor;
    [now apply shows_only_quiet | exact IH].
Qed.

Lemma pipeline_events_show query :
  Forall (shows_only (research_text w query)
                     (chart_text w (research_text w query) query))
         (pipeline_events w query).
Proof.
  unfold pipeline_events, chart_step_events, research_events, chart_events, chart_panel,
    download_events.
  repeat (first [ apply Forall_cons; split; [exact I || reflexivity |]
                | apply Forall_app; split
                | apply chat_events_show ]).
  destruct (truthy (research_text w query)); [| constructor].
  repeat (first [ apply Forall_cons; split; [exact I || reflexivity |]
                | apply Forall_app; split
                | apply chat_events_show ]).
  destruct (truthy (chart_text w (research_text w query) query)); [| constructor].
  destruct (isinstance_str (chart_text w (research_text w query) query));
    repeat constructor.
Qed.

Lemma pipeline_events_call query : existsb is_call (pipeline_events w query) = true.
Proof. reflexivity. Qed.

Lemma pipeline_state_research query s :
  pipeline_state w query s !! "research_data" =
    Some (if truthy (research_text w query) then research_text w query else VNone).
Proof.
  unfold pipeline_state.
  destruct (truthy (research_text w query));
    [destruct (truthy (chart_text w (research_text w query) query)) |];
    solve_lookup.
Qed.

Lemma pipeline_state_chart query s :
  pipeline_state w query s !! "chart_code" =
    Some (if truthy (research_text w query) &&
             truthy (chart_text w (research_text w query) query)
          then chart_text w (research_text w query) query else VNone).
Proof.
  unfold pipeline_state.
  destruct (truthy (research_text w query));
    [destruct (truthy (chart_text w (research_text w query) query)) |];
    simpl; solve_lookup.
Qed.

Lemma check_api_key_run s :
  exists box,
    forallb chrome box = true /\
    check_api_key w s = if has_api_key w then Out (Ok tt) s box else Out Stop s box.
Proof.
  unfold check_api_key, has_api_key.
  destruct (truthy (resolve_api_key w)); cbn [negb].
  - eexists; split; [| reflexivity]. reflexivity.
  - eexists; split; [| repeat mstep fail; reflexivity]. reflexivity.
Qed.

Lemma main_input_run s :
  exists box,
    chrome box = true /\
    main_input w inp s =
      Out (Ok (default (py_str w (default (VStr "") (s !! "selected_query")))
                       (text_entered inp))) s [box].
Proof.
  unfold main_input. eexists; split; [| mstep fail; reflexivity]. reflexivity.
Qed.

(** [main] up to the generate button. *)
Lemma main_run s :
  exists head,
    forallb chrome head = true /\
    main w inp s =
      if has_api_key w then
        let o := (generate_button w inp (user_query w inp s) ;; previous_results)
                   (state (sidebar_panel inp s)) in
        Out (value o) (state o) (head ++ events o)
      else Out Stop (state (sidebar_panel inp s)) head.
Proof.
  destruct (sidebar_panel_run inp s) as (Hv & _ & Hside).
  destruct (check_api_key_run (state (sidebar_panel inp s))) as (kbox & Hkbox & Hcheck).
  destruct (main_input_run (state (sidebar_panel inp s))) as (ibox & Hibox & Hinput).
  unfold main, page_header.
  mstep fail. mstep ltac:(apply run_eta, Hv).
  destruct (has_api_key w).
  - mstep ltac:(apply Hcheck). mstep ltac:(apply Hinput).
    fold (user_query w inp s).
    generalize ((generate_button w inp (user_query w inp s) ;; previous_results)
                  (state (sidebar_panel inp s))).
    intros o.
    exists (Render (markdown main_header_html true) ::
            events (sidebar_panel inp s) ++ kbox ++ [ibox])%list.
    split.
    + cbn [forallb]. rewrite !forallb_app, Hside, Hkbox. cbn [forallb].
      now rewrite Hibox.
    + cbn [app]. rewrite <- !app_assoc. reflexivity.
  - erewrite bind_stop by apply Hcheck.
    exists (Render (markdown main_header_html true) ::
            events (sidebar_panel inp s) ++ kbox)%list.
    split; [| reflexivity].
    cbn [forallb]. now rewrite forallb_app, Hside, Hkbox.
Qed.

Lemma generate_button_run query s :
  generate_button w inp query s =
    if generate_clicked inp then
      if truthy (VStr query) then
        Out (pipeline_value w query) (pipeline_state w query s)
            (generate_box :: pipeline_events w query)
      else Out (Ok tt) s [generate_box; Render (warning "⚠️ Please enter a query!")]
    else Out (Ok tt) s [generate_box].
Proof.
  unfold generate_button, on_generate, generate_box.
  destruct (generate_clicked inp); [destruct (truthy (VStr query)) |];
    mstep fail; [rewrite run_pipeline_run | |]; reflexivity.
Qed.

Lemma generate_run query s :
  (generate_button w inp query ;; previous_results) s =
    if generate_clicked inp then
      if truthy (VStr query) then
        let s' := pipeline_state w query s in
        let p := after_pipeline w query s' in
        Out (value p) s' (generate_box :: pipeline_events w query ++ events p)
      else
        let p := previous_outcome (s !! "research_data") (s !! "chart_code") s in
        Out (value p) s
            (generate_box :: Render (warning "⚠️ Please enter a query!") :: events p)
    else
      let p := previous_outcome (s !! "research_data") (s !! "chart_code") s in
      Out (value p) s (generate_box :: events p).
Proof.
  unfold bind. rewrite generate_button_run.
  destruct (generate_clicked inp); [destruct (truthy (VStr query)) |];
    cbn [value state events];
    [| rewrite previous_results_run, previous_outcome_state; reflexivity ..].
  unfold after_pipeline.
  destruct (pipeline_value w query) as [[]|e|]; cbn zeta; cbn [value state events];
    rewrite ?app_nil_r; [| reflexivity ..].
  rewrite previous_results_run, previous_outcome_state. reflexivity.
Qed.

End MainRuns.

Lemma previous_outcome_events research chart s1 s2 :
  events (previous_outcome research chart s1) = events (previous_outcome research chart s2).
Proof.
  unfold previous_outcome. destruct research as [r|]; [| reflexivity].
  destruct (truthy r); [| reflexivity]. now destruct chart.
Qed.

Lemma chrome_unstored l :
  forallb chrome l = true -> forallb (fun e => negb (stores e)) l = true.
Proof.
  induction l as [|e l IH]; [reflexivity |]. cbn [forallb]. intros H.
  apply andb_prop in H as [He Hl]. rewrite (IH Hl).
  unfold chrome in He. apply andb_prop in He as [_ He]. now rewrite He.
Qed.

Lemma previous_outcome_unstored research chart s :
  forallb (fun e => negb (stores e)) (events (previous_outcome research chart s)) = true.
Proof.
  unfold previous_outcome. destruct research as [r|]; [| reflexivity].
  destruct (truthy r); [| reflexivity]. destruct chart as [c|]; [| reflexivity].
  now destruct (truthy c).
Qed.

Section Submission.

Variable w : world.

(** After the pipeline comes the section of previous results, or nothing. *)
Lemma after_pipeline_events query s :
  events (after_pipeline w query s) = [] \/
  events (after_pipeline w query s) =
    events (previous_outcome (s !! "research_data") (s !! "chart_code") s).
Proof.
  unfold after_pipeline. destruct (pipeline_value w query); auto.
Qed.

Lemma after_pipeline_same query (s1 s2 : gmap string pyval) :
  s1 !! "research_data" = s2 !! "research_data" ->
  s1 !! "chart_code" = s2 !! "chart_code" ->
  events (after_pipeline w query s1) = events (after_pipeline w query s2).
Proof.
  intros Hr Hc. unfold after_pipeline.
  destruct (pipeline_value w query); [| reflexivity ..].
  rewrite Hr, Hc. apply previous_outcome_events.
Qed.

Lemma submission_tail_quiet query : existsb is_call (submission_tail w query) = false.
Proof.
  unfold submission_tail.
  destruct (after_pipeline_events query (pipeline_state w query ∅)) as [-> | ->];
    [reflexivity | apply previous_outcome_quiet].
Qed.

Lemma submission_tail_shows query :
  Forall (shows_only (research_text w query)
                     (chart_text w (research_text w query) query))
         (submission_tail w query).
Proof.
  unfold submission_tail.
  destruct (after_pipeline_events query (pipeline_state w query ∅)) as [-> | ->];
    [constructor |].
  rewrite pipeline_state_research, pipeline_state_chart.
  destruct (truthy (research_text w query)) eqn:Hr;
    [destruct (truthy (chart_text w (research_text w query) query)) eqn:Hc |];
    cbn [andb]; try apply previous_outcome_shows;
    unfold previous_outcome; cbn [truthy];
    try rewrite Hr; constructor.
Qed.

(** A run of [main] that submits a non-empty query. *)
Lemma main_submission inp s query :
  has_api_key w = true ->
  generate_clicked inp = true ->
  user_query w inp s = query ->
  truthy (VStr query) = true ->
  exists head,
    forallb chrome head = true /\
    events (main w inp s) = (head ++ pipeline_events w query ++ submission_tail w query)%list /\
    state (main w inp s) = pipeline_state w query (state (sidebar_panel inp s)).
Proof.
  intros Hkey Hclick Hq Hne.
  destruct (main_run w inp s) as (head & Hhead & Hmain).
  rewrite Hkey, Hq, generate_run, Hclick, Hne in Hmain. cbn zeta in Hmain.
  exists (head ++ [generate_box])%list. split; [| split].
  - rewrite forallb_app, Hhead. reflexivity.
  - rewrite Hmain. cbn [events]. rewrite <- app_assoc. cbn [app].
    unfold submission_tail.
    now rewrite (after_pipeline_same query _ (pipeline_state w query ∅))
      by now rewrite ?pipeline_state_research, ?pipeline_state_chart.
  - rewrite Hmain. reflexivity.
Qed.

(** Such a run ends as its pipeline does: the section of previous results
    finds both keys in the session. *)
Lemma after_pipeline_value query s :
  value (after_pipeline w query (pipeline_state w query s)) = pipeline_value w query.
Proof.
  unfold after_pipeline.
  destruct (pipeline_value w query) as [[]|e|]; [| reflexivity ..].
  rewrite pipeline_state_research, pipeline_state_chart. apply previous_outcome_value.
Qed.

Lemma main_submission_value inp s query :
  has_api_key w = true ->
  generate_clicked inp = true ->
  user_query w inp s = query ->
  truthy (VStr query) = true ->
  value (main w inp s) = pipeline_value w query.
Proof.
  intros Hkey Hclick Hq Hne.
  destruct (main_run w inp s) as (head & _ & Hmain).
  rewrite Hkey, Hq, generate_run, Hclick, Hne in Hmain. cbn zeta in Hmain.
  rewrite Hmain. cbn [value]. apply after_pipeline_value.
Qed.

(** A run of [main] that does not run the pipeline: no credential, no click
    on the generate button, or an empty query. *)
Lemma main_quiet inp s :
  has_api_key w && generate_clicked inp && truthy (VStr (user_query w inp s)) = false ->
  existsb is_call (events (main w inp s)) = false /\
  forallb (fun e => negb (stores e)) (events (main w inp s)) = true /\
  state (main w inp s) !! "research_data" = s !! "research_data" /\
  state (main w inp s) !! "chart_code" = s !! "chart_code".
Proof.
  intros Hcase.
  destruct (main_run w inp s) as (head & Hhead & Hmain).
  destruct (sidebar_panel_run inp s) as (_ & Hside & _).
  rewrite generate_run in Hmain. rewrite Hmain. clear Hmain.
  destruct (has_api_key w); cbn [andb] in Hcase.
  - destruct (generate_clicked inp); cbn [andb] in Hcase;
      [rewrite Hcase |]; cbn zeta; cbn [state events];
      rewrite existsb_app, forallb_app, (chrome_no_call _ Hhead),
        (chrome_unstored _ Hhead);
      cbn [existsb forallb is_call stores generate_box orb andb negb];
      rewrite previous_outcome_quiet, previous_outcome_unstored; now rewrite !Hside.
  - cbn [state events].
    rewrite (chrome_no_call _ Hhead), (chrome_unstored _ Hhead). now rewrite !Hside.
Qed.

End Submission.

(** C5. When the generate button is clicked with an empty query box, [main]
    leaves the stored research text and chart code as they were, makes no
    HTTP call and shows the warning. *)
Theorem empty_query_rejected (w : world) (inp : inputs) (s : gmap string pyval) :
  has_api_key w = true ->
  generate_clicked inp = true ->
  user_query w inp s = "" ->
  state (main w inp s) !! "research_data" = s !! "research_data" /\
  state (main w inp s) !! "chart_code" = s !! "chart_code" /\
  existsb is_call (events (main w inp s)) = false /\
  In (Render (warning "⚠️ Please enter a query!")) (events (main w inp s)).
Proof.
  intros Hkey Hclick Hq.
  destruct (main_quiet w inp s) as (Hcalls & _ & Hr & Hc).
  { rewrite Hkey, Hclick, Hq. reflexivity. }
  repeat split; try assumption.
  destruct (main_run w inp s) as (head & _ & Hmain).
  rewrite Hkey, Hq, generate_run, Hclick in Hmain. cbn [truthy String.eqb negb] in Hmain.
  rewrite Hmain. cbn zeta. cbn [events].
  apply in_or_app. right. right. now left.
Qed.

Lemma empty_query_rejected_witness :
  let w := sample_world offline offline (Some "sk-test") in
  state (main w (click_generate None) old_session) !! "research_data" =
    old_session !! "research_data" /\
  state (main w (click_generate None) old_session) !! "chart_code" =
    old_session !! "chart_code" /\
  existsb is_call (events (main w (click_generate None) old_session)) = false /\
  In (Render (warning "⚠️ Please enter a query!"))
     (events (main w (click_generate None) old_session)).
Proof.
  exact (empty_query_rejected (sample_world offline offline (Some "sk-test"))
           (click_generate None) old_session eq_refl eq_refl eq_refl).
Defined.

(** *** Characters and the file name *)

Lemma take_str_len n s : str_len (take_str n s) = Nat.min n (str_len s).
Proof.
  revert n. induction s as [|c s IH]; intros n; cbn [take_str str_len];
    [now rewrite Nat.min_0_r |].
  destruct (continuation c) eqn:Hc.
  - cbn [str_len]. rewrite Hc. apply IH.
  - destruct n as [|n]; [reflexivity |]. cbn [str_len]. now rewrite Hc, IH.
Qed.

Lemma take_str_prefix n s : String.prefix (take_str n s) s = true.
Proof.
  revert n. induction s as [|c s IH]; intros n; cbn [take_str]; [reflexivity |].
  destruct (continuation c); [| destruct n as [|n]; [reflexivity |]];
    cbn [String.prefix]; (destruct (ascii_dec c c); [apply IH | congruence]).
Qed.

Lemma replace_char_len old new s :
  continuation old = false -> continuation new = false ->
  str_len (replace_char old new s) = str_len s.
Proof.
  intros Hold Hnew. induction s as [|c s IH]; [reflexivity |].
  cbn [replace_char str_len]. rewrite IH.
  destruct (Ascii.eqb_spec c old) as [-> |]; [now rewrite Hold, Hnew | reflexivity].
Qed.

Lemma replace_space_no_space s :
  forallb (fun c => negb (Ascii.eqb c " "))
          (list_ascii_of_string (replace_char " " "_" s)) = true.
Proof.
  induction s as [|c s IH]; simpl; [reflexivity |].
  rewrite IH. destruct (Ascii.eqb c " ") eqn:Hc; [reflexivity | now rewrite Hc].
Qed.

(** The cut is after twenty characters, not after twenty bytes. *)
Lemma download_name_accents : download_name pib = "chart_Évolution_du_PIB_fra.py".
Proof. reflexivity. Qed.

Lemma pipeline_events_panel w query :
  truthy (research_text w query) = true ->
  truthy (chart_text w (research_text w query) query) = true ->
  exists before,
    pipeline_events w query =
      (before ++ chart_panel (chart_text w (research_text w query) query) query)%list.
Proof.
  intros Hr Hc. unfold pipeline_events, chart_step_events. rewrite Hr, Hc.
  eexists (_ :: _ :: _ :: research_events w query ++
           (_ :: _ :: _ :: _ :: chart_events w _ query ++ [_]))%list.
  cbn [app]. do 3 f_equal. rewrite <- app_assoc. f_equal. cbn [app]. do 4 f_equal.
  rewrite <- app_assoc. reflexivity.
Qed.

(** C8. In a run where the research text comes back non-empty and the chart
    code comes back as a non-empty text, [main] renders the code panel with
    the chart code and then the download button whose data is that same
    text and whose file name is [chart_], the first 20 characters of the
    query with each space replaced by an underscore, and [.py]: the stem is
    made from a prefix of the query, has [min 20 (len query)] characters and
    no space. *)
Theorem download_matches_code_panel (w : world) (inp : inputs) (s : gmap string pyval)
    (query code_text : string) :
  has_api_key w = true ->
  generate_clicked inp = true ->
  user_query w inp s = query ->
  truthy (VStr query) = true ->
  truthy (research_text w query) = true ->
  chart_text w (research_text w query) query = VStr code_text ->
  truthy (VStr code_text) = true ->
  let c := VStr code_text in
  let stem := replace_char " " "_" (take_str 20 query) in
  (exists before after,
     events (main w inp s) =
       (before ++
        [Render (code c (Some "python"));
         Render (success "🎉 Chart code generated successfully!");
         Render (info "💡 Copy the code above and run it in your local Python environment.");
         Render (download_button "📥 Download Python Code" c
                   ("chart_" ++ stem ++ ".py") "text/plain")] ++
        after)%list)
  /\ state (main w inp s) !! "chart_code" = Some c
  /\ String.prefix (take_str 20 query) query = true
  /\ str_len stem = Nat.min 20 (str_len query)
  /\ forallb (fun ch => negb (Ascii.eqb ch " ")) (list_ascii_of_string stem) = true.
Proof.
  intros Hkey Hclick Hq Hne Hr Hchart Hc c stem.
  destruct (main_submission w inp s query Hkey Hclick Hq Hne) as (head & _ & Hev & Hst).
  destruct (pipeline_events_panel w query Hr) as (before & Hpanel);
    [now rewrite Hchart |].
  split; [| split; [| split; [| split]]].
  - exists (head ++ before ++ [Render (markdown chart_code_html true)])%list,
           (submission_tail w query).
    rewrite Hev, Hpanel, Hchart.
    cbn [chart_panel download_events isinstance_str app].
    rewrite <- !app_assoc. reflexivity.
  - rewrite Hst, pipeline_state_chart, Hr, Hchart, Hc. reflexivity.
  - apply take_str_prefix.
  - subst stem. now rewrite replace_char_len, take_str_len.
  - apply replace_space_no_space.
Qed.

Lemma download_matches_code_panel_witness :
  let c := VStr "import matplotlib.pyplot as plt" in
  (exists before after,
     events (main chart_world (click_generate (Some pib)) old_session) =
       (before ++
        [Render (code c (Some "python"));
         Render (success "🎉 Chart code generated successfully!");
         Render (info "💡 Copy the code above and run it in your local Python environment.");
         Render (download_button "📥 Download Python Code" c
                   "chart_Évolution_du_PIB_fra.py" "text/plain")] ++
        after)%list)
  /\ state (main chart_world (click_generate (Some pib)) old_session) !! "chart_code"
       = Some c
  /\ String.prefix "Évolution du PIB fra" pib = true
  /\ str_len "Évolution_du_PIB_fra" = Nat.min 20 (str_len pib)
  /\ forallb (fun ch => negb (Ascii.eqb ch " "))
             (list_ascii_of_string "Évolution_du_PIB_fra") = true.
Proof.
  exact (download_matches_code_panel chart_world (click_generate (Some pib))
           old_session pib "import matplotlib.pyplot as plt"
           eq_refl eq_refl eq_refl eq_refl eq_refl eq_refl eq_refl).
Defined.

(** ** Two runs of the same query *)

Lemma outputs_app l1 l2 : outputs (l1 ++ l2) = (outputs l1 ++ outputs l2)%list.
Proof. apply List.filter_app. Qed.

(** C9. Two submissions of the same non-empty query in the same world
    (the same search and chat back ends) display the same research text and
    chart code, and store the same two values, whatever the session held
    before each of them and however the query got into the box. *)
Theorem resubmission_same_display (w : world) (inp1 inp2 : inputs)
    (s1 s2 : gmap string pyval) (query : string) :
  has_api_key w = true ->
  generate_clicked inp1 = true ->
  generate_clicked inp2 = true ->
  user_query w inp1 s1 = query ->
  user_query w inp2 s2 = query ->
  truthy (VStr query) = true ->
  outputs (events (main w inp1 s1)) = outputs (events (main w inp2 s2)) /\
  state (main w inp1 s1) !! "research_data" = state (main w inp2 s2) !! "research_data" /\
  state (main w inp1 s1) !! "chart_code" = state (main w inp2 s2) !! "chart_code".
Proof.
  intros Hkey Hc1 Hc2 Hq1 Hq2 Hne.
  destruct (main_submission w inp1 s1 query Hkey Hc1 Hq1 Hne) as (h1 & Hh1 & He1 & Hs1).
  destruct (main_submission w inp2 s2 query Hkey Hc2 Hq2 Hne) as (h2 & Hh2 & He2 & Hs2).
  split; [| split].
  - rewrite He1, He2, !outputs_app.
    now rewrite (chrome_no_output _ Hh1), (chrome_no_output _ Hh2).
  - now rewrite Hs1, Hs2, !pipeline_state_research.
  - now rewrite Hs1, Hs2, !pipeline_state_chart.
Qed.

Lemma resubmission_same_display_witness :
  outputs (events (main chart_world (click_generate (Some bitcoin)) ∅)) =
  outputs (events (main chart_world (click_generate None) selected_session)) /\
  state (main chart_world (click_generate (Some bitcoin)) ∅) !! "research_data" =
  state (main chart_world (click_generate None) selected_session) !! "research_data" /\
  state (main chart_world (click_generate (Some bitcoin)) ∅) !! "chart_code" =
  state (main chart_world (click_generate None) selected_session) !! "chart_code".
Proof.
  apply (resubmission_same_display chart_world _ _ _ _ bitcoin);
    vm_compute; reflexivity.
Defined.

(** ** The session across runs *)

Lemma init_state_selected s :
  init_state s !! "selected_query" = s !! "selected_query".
Proof.
  unfold init_state.
  destruct (s !! "research_data"); cbn zeta;
    rewrite ?lookup_insert_ne by done;
    destruct (s !! "chart_code");
    rewrite ?lookup_insert_ne by done; reflexivity.
Qed.

Lemma script_run w inp s :
  script w inp s =
    let o := main w inp (init_state s) in
    Out (value o) (state o) (init_events s ++ events o).
Proof.
  unfold script, init_state, init_events, not_in_state.
  do 3 mstep fail.
  destruct (s !! "research_data") as [r|] eqn:Hr.
  - do 2 mstep fail.
    destruct (s !! "chart_code"); mstep fail; mdone.
  - do 2 mstep fail.
    rewrite !lookup_insert_ne by done.
    destruct (s !! "chart_code"); mstep fail; mdone.
Qed.

(** *** The final state is the replay of the events *)

Lemma replay_app s l1 l2 : replay s (l1 ++ l2) = replay (replay s l1) l2.
Proof. apply fold_left_app. Qed.

Lemma consistent_ret {A : Type} (a : A) : consistent (ret a).
Proof. intros s. reflexivity. Qed.

Lemma consistent_lift {A : Type} (r : result A) : consistent (lift r).
Proof. intros s. reflexivity. Qed.

Lemma consistent_st wd : consistent (st wd).
Proof. intros s. reflexivity. Qed.

Lemma consistent_set_state key v : consistent (set_state key v).
Proof. intros s. reflexivity. Qed.

Lemma consistent_get_state key : consistent (get_state key).
Proof. intros s. unfold get_state. now destruct (s !! key). Qed.

Lemma consistent_bind {A B : Type} (m : M A) (k : A -> M B) :
  consistent m -> (forall a, consistent (k a)) -> consistent (bind m k).
Proof.
  intros Hm Hk s. unfold bind. specialize (Hm s).
  destruct (value (m s)) as [a| |]; cbn [state events]; try exact Hm.
  rewrite replay_app, <- Hm. apply Hk.
Qed.

Lemma consistent_try_except {A : Type} (m : M A) (handler : exn -> M A) :
  consistent m -> (forall e, consistent (handler e)) -> consistent (try_except m handler).
Proof.
  intros Hm Hh s. unfold try_except. specialize (Hm s).
  destruct (value (m s)) as [a|e|] eqn:Hv; try exact Hm.
  cbn [state events]. rewrite replay_app, <- Hm. apply Hh.
Qed.

Lemma consistent_when b m : consistent m -> consistent (when b m).
Proof. intros Hm. destruct b; [exact Hm | apply consistent_ret]. Qed.

Lemma search_web_consistent w query : consistent (search_web w query).
Proof. intros s. now rewrite (proj1 (search_web_run w query s)). Qed.

Lemma call_openai_api_consistent w messages : consistent (call_openai_api w messages).
Proof.
  unfold call_openai_api.
  apply consistent_try_except; [| intros e; apply consistent_ret].
  cbv zeta. destruct (negb (truthy (resolve_api_key w))); [apply consistent_ret |].
  apply consistent_bind; [intros s; reflexivity | intros r].
  destruct (status_code r =? 200)%Z; [| apply consistent_ret].
  apply consistent_bind; [apply consistent_lift | intros res; apply consistent_lift].
Qed.

Lemma example_buttons_consistent inp queries : consistent (example_buttons inp queries).
Proof.
  induction queries as [|q rest IH]; [apply consistent_ret |].
  cbn [example_buttons].
  apply consistent_bind; [intros s; reflexivity | intros clicked].
  apply consistent_bind; [| intros _; exact IH].
  apply consistent_when, consistent_set_state.
Qed.

Ltac consistency :=
  repeat
    lazymatch goal with
    | |- consistent (ret _) => apply consistent_ret
    | |- consistent (lift _) => apply consistent_lift
    | |- consistent (st _) => apply consistent_st
    | |- consistent (set_state _ _) => apply consistent_set_state
    | |- consistent (get_state _) => apply consistent_get_state
    | |- consistent (search_web _ _) => apply search_web_consistent
    | |- consistent (call_openai_api _ _) => apply call_openai_api_consistent
    | |- consistent (example_buttons _ _) => apply example_buttons_consistent
    | |- consistent (bind _ _) => apply consistent_bind; [| intros ?]
    | |- consistent (when _ _) => apply consistent_when
    | |- consistent (if ?b then _ else _) => destruct b
    | |- consistent _ => intros ?; reflexivity
    end.

Lemma main_consistent w inp : consistent (main w inp).
Proof.
  unfold main, page_header, sidebar_panel, check_api_key, main_input, generate_button,
    on_generate, run_pipeline, show_research_and_chart, show_chart_code,
    st_download_button, research_agent, chart_generator_agent, previous_results.
  cbv zeta. consistency.
Qed.

Lemma script_consistent w inp : consistent (script w inp).
Proof.
  unfold script. consistency. apply main_consistent.
Qed.

(** *** The invariant at every observation *)

Lemma at_observations_app P s l1 l2 :
  at_observations P s l1 ->
  at_observations P (replay s l1) l2 ->
  at_observations P s (l1 ++ l2).
Proof.
  revert s. induction l1 as [|e l1 IH]; intros s H1 H2; [exact H2 |].
  destruct H1 as [He H1]. split; [exact He | now apply IH].
Qed.

Lemma at_observations_end P s l : at_observations P s l -> P (replay s l).
Proof.
  revert s. induction l as [|e l IH]; intros s H; [exact H |].
  destruct H as [_ H]. now apply IH.
Qed.

(** The invariant reads the two stored values only. *)
Lemma chart_has_research_same (s s' : gmap string pyval) :
  s' !! "research_data" = s !! "research_data" ->
  s' !! "chart_code" = s !! "chart_code" ->
  chart_has_research s -> chart_has_research s'.
Proof.
  intros Hr Hc H c Hc' Ht. rewrite Hc in Hc'.
  destruct (H c Hc' Ht) as (w & q & r & Hq & Hrs & Htr & Hr1 & Hc1).
  exists w, q, r. rewrite Hr. auto.
Qed.

Lemma chart_none_has_research (s : gmap string pyval) :
  s !! "chart_code" = Some VNone -> chart_has_research s.
Proof. intros Hc c Hc' Ht. rewrite Hc in Hc'. injection Hc' as <-. discriminate. Qed.

Lemma chart_missing_has_research (s : gmap string pyval) :
  s !! "chart_code" = None -> chart_has_research s.
Proof. intros Hc c Hc' Ht. rewrite Hc in Hc'. discriminate. Qed.

Lemma unstored_apply_event s e :
  stores e = false ->
  apply_event s e !! "research_data" = s !! "research_data" /\
  apply_event s e !! "chart_code" = s !! "chart_code".
Proof.
  destruct e as [| |key v|wd]; try (now split). cbn.
  destruct (String.eqb_spec key "research_data"); [discriminate |].
  destruct (String.eqb_spec key "chart_code"); [discriminate |].
  intros _. now rewrite !lookup_insert_ne.
Qed.

(** Events that write neither stored value keep the invariant. *)
Lemma unstored_observations s l :
  forallb (fun e => negb (stores e)) l = true ->
  chart_has_research s ->
  at_observations chart_has_research s l /\
  replay s l !! "research_data" = s !! "research_data" /\
  replay s l !! "chart_code" = s !! "chart_code".
Proof.
  revert s. induction l as [|e l IH]; intros s Hl Hs; [now repeat split |].
  cbn [forallb] in Hl. apply andb_prop in Hl as [He Hl].
  apply negb_true_iff in He.
  destruct (unstored_apply_event s e He) as [Hr Hc].
  destruct (IH (apply_event s e) Hl) as (Hobs & Hr' & Hc').
  { now apply (chart_has_research_same s). }
  split; [split; [auto | exact Hobs] |].
  cbn [replay fold_left]. fold (replay (apply_event s e) l).
  now rewrite Hr', Hc'.
Qed.

(** Events that are no session write leave the state as it is. *)
Lemma no_set_observations P s l :
  forallb (fun e => negb (is_set e)) l = true ->
  P s ->
  at_observations P s l /\ replay s l = s.
Proof.
  induction l as [|e l IH]; intros Hl Hs; [now split |].
  cbn [forallb] in Hl. apply andb_prop in Hl as [He Hl].
  assert (Hsame : apply_event s e = s) by (destruct e; try reflexivity; discriminate).
  destruct (IH Hl Hs) as [Hobs Hrep].
  cbn [at_observations replay fold_left]. fold (replay (apply_event s e) l).
  rewrite Hsame. auto.
Qed.

Lemma chat_events_no_set w messages :
  forallb (fun e => negb (is_set e)) (chat_events w messages) = true.
Proof.
  unfold chat_events, call_openai_api, try_except, bind, requests_post, lift, ret. simpl.
  destruct (negb (truthy (resolve_api_key w))); simpl; [reflexivity |].
  destruct (http_post w _ _ _ _) as [r|e]; simpl; [| reflexivity].
  destruct (status_code r =? 200)%Z; simpl; [| reflexivity].
  destruct (response_json r) as [res|e|]; simpl; try reflexivity.
  destruct (first_choice_content res); reflexivity.
Qed.

Lemma at_observations_quiet_app P s l rest :
  forallb (fun e => negb (is_set e)) l = true ->
  P s ->
  at_observations P s rest ->
  at_observations P s (l ++ rest).
Proof.
  intros Hl Hs Hrest. destruct (no_set_observations P s l Hl Hs) as [Hobs Hrep].
  apply at_observations_app; [exact Hobs | now rewrite Hrep].
Qed.

Lemma previous_outcome_no_set research chart s :
  forallb (fun e => negb (is_set e)) (events (previous_outcome research chart s)) = true.
Proof.
  unfold previous_outcome. destruct research as [r|]; [| reflexivity].
  destruct (truthy r); [| reflexivity]. destruct chart as [c|]; [| reflexivity].
  now destruct (truthy c).
Qed.

Lemma pipeline_observations w query s :
  truthy (VStr query) = true ->
  at_observations chart_has_research s (pipeline_events w query ++ submission_tail w query).
Proof.
  intros Hq.
  assert (Htail : forallb (fun e => negb (is_set e)) (submission_tail w query) = true).
  { unfold submission_tail.
    destruct (after_pipeline_events w query (pipeline_state w query ∅)) as [-> | ->];
      [reflexivity | apply previous_outcome_no_set]. }
  unfold pipeline_events, research_events.
  cbn [app at_observations is_set apply_event].
  split; [discriminate |]. split; [discriminate |].
  set (sa := <["chart_code":=VNone]> (<["research_data":=VNone]> s)).
  assert (Hsa : chart_has_research sa)
    by (apply chart_none_has_research, lookup_insert_eq).
  repeat (split; [intros _; exact Hsa |]).
  rewrite <- app_assoc.
  apply at_observations_quiet_app; [apply chat_events_no_set | exact Hsa |].
  destruct (truthy (research_text w query)) eqn:Hr;
    [| now apply no_set_observations].
  unfold chart_step_events, chart_events.
  cbn [app at_observations is_set apply_event].
  split; [discriminate |].
  set (sb := <["research_data":=research_text w query]> sa).
  assert (Hsb : chart_has_research sb).
  { apply chart_none_has_research. subst sb sa.
    rewrite lookup_insert_ne by done. apply lookup_insert_eq. }
  repeat (split; [intros _; exact Hsb |]).
  rewrite <- app_assoc.
  apply at_observations_quiet_app; [apply chat_events_no_set | exact Hsb |].
  destruct (truthy (chart_text w (research_text w query) query)) eqn:Hc;
    [| now apply no_set_observations].
  cbn [app at_observations is_set apply_event].
  split; [discriminate |].
  set (sc := <["chart_code":=chart_text w (research_text w query) query]> sb).
  assert (Hsc : chart_has_research sc).
  { intros c Hlook Ht. subst sc. rewrite lookup_insert_eq in Hlook.
    injection Hlook as <-.
    exists w, query, (research_text w query). repeat split; try assumption.
    subst sb. rewrite lookup_insert_ne by done. apply lookup_insert_eq. }
  unfold chart_panel, download_events.
  destruct (isinstance_str (chart_text w (research_text w query) query));
    cbn [app at_observations is_set apply_event];
    repeat (split; [intros _; exact Hsc |]);
    now apply no_set_observations.
Qed.

Lemma init_observations s :
  chart_has_research s ->
  at_observations chart_has_research s (init_events s) /\
  replay s (init_events s) = init_state s.
Proof.
  intros Hs. unfold init_events, init_state.
  destruct (s !! "research_data") as [r|] eqn:Hr.
  - destruct (s !! "chart_code") as [c|] eqn:Hc; cbn; repeat split; auto.
    apply chart_none_has_research, lookup_insert_eq.
  - rewrite lookup_insert_ne by done.
    destruct (s !! "chart_code") as [c|] eqn:Hc; cbn; repeat split; auto;
      try discriminate.
    + intros c' Hlook Ht. rewrite lookup_insert_ne, Hc in Hlook by done.
      injection Hlook as <-.
      destruct (Hs c Hc Ht) as (w & q & r & _ & Hrs & _). congruence.
    + apply chart_none_has_research, lookup_insert_eq.
Qed.

Lemma init_events_no_call s : existsb is_call (init_events s) = false.
Proof.
  unfold init_events. now destruct (s !! "research_data"), (s !! "chart_code").
Qed.

Lemma init_events_show r c s : Forall (shows_only r c) (init_events s).
Proof.
  unfold init_events.
  destruct (s !! "research_data"), (s !! "chart_code"); repeat constructor.
Qed.

Lemma user_query_init w inp s : user_query w inp (init_state s) = user_query w inp s.
Proof.
  unfold user_query.
  now rewrite (sidebar_panel_selected inp (init_state s) s (init_state_selected s)).
Qed.

Lemma andb3_true a b c : a && b && c = true -> a = true /\ b = true /\ c = true.
Proof. now destruct a, b, c. Qed.

Lemma script_observations w inp s :
  chart_has_research s ->
  at_observations chart_has_research s (events (script w inp s)).
Proof.
  intros Hs. rewrite script_run. cbn zeta. cbn [events].
  destruct (init_observations s Hs) as [Hinit Hrep].
  pose proof (at_observations_end _ _ _ Hinit) as Hs0. rewrite Hrep in Hs0.
  apply at_observations_app; [exact Hinit |]. rewrite Hrep.
  destruct (has_api_key w && generate_clicked inp &&
            truthy (VStr (user_query w inp (init_state s)))) eqn:Hcase.
  - apply andb3_true in Hcase as (Hkey & Hclick & Hne).
    destruct (main_submission w inp (init_state s) _ Hkey Hclick eq_refl Hne)
      as (head & Hhead & Hev & _).
    rewrite Hev.
    destruct (unstored_observations (init_state s) head (chrome_unstored _ Hhead) Hs0)
      as (Hobs & _).
    apply at_observations_app; [exact Hobs |]. now apply pipeline_observations.
  - destruct (main_quiet w inp (init_state s) Hcase) as (_ & Hun & _).
    now apply unstored_observations.
Qed.

Lemma script_trace w inp s :
  cleared_before_calls (events (script w inp s)) /\
  fresh_display w inp s (events (script w inp s)).
Proof.
  rewrite script_run. cbn zeta. cbn [events].
  destruct (has_api_key w && generate_clicked inp &&
            truthy (VStr (user_query w inp (init_state s)))) eqn:Hcase.
  - apply andb3_true in Hcase as (Hkey & Hclick & Hne).
    destruct (main_submission w inp (init_state s) _ Hkey Hclick eq_refl Hne)
      as (head & Hhead & Hev & _).
    rewrite Hev. rewrite user_query_init in *.
    set (q := user_query w inp s) in *.
    split.
    + intros _.
      exists (init_events s ++ head)%list,
             (tl (tl (pipeline_events w q)) ++ submission_tail w q)%list.
      split; [now rewrite <- app_assoc |].
      now rewrite existsb_app, init_events_no_call, (chrome_no_call _ Hhead).
    + intros _. cbn zeta. fold q.
      apply Forall_app; split; [apply init_events_show |].
      apply Forall_app; split; [now apply chrome_shows |].
      apply Forall_app; split;
        [apply pipeline_events_show | apply submission_tail_shows].
  - destruct (main_quiet w inp (init_state s) Hcase) as (Hquiet & _).
    split; intros Hcall;
      rewrite existsb_app, init_events_no_call, Hquiet in Hcall; discriminate.
Qed.

Lemma script_submission_calls w inp s :
  has_api_key w = true ->
  generate_clicked inp = true ->
  truthy (VStr (user_query w inp s)) = true ->
  existsb is_call (events (script w inp s)) = true.
Proof.
  intros Hkey Hclick Hne. rewrite script_run. cbn zeta. cbn [events].
  rewrite <- user_query_init in Hne.
  destruct (main_submission w inp (init_state s) _ Hkey Hclick eq_refl Hne)
    as (head & _ & Hev & _).
  rewrite Hev, !existsb_app, pipeline_events_call. cbn [orb].
  now rewrite !orb_true_r.
Qed.

(** C4. Every session state reachable between runs has the invariant: a
    populated chart code comes with the non-empty research text of the same
    query.  And in every run from such a state: the invariant holds whenever
    a widget is rendered or a call is made, and at the end of the run, whose
    final state is the replay of its writes; a submission of a non-empty
    query calls the agents; a run that calls an agent has cleared both
    values before its first call; and it displays the research and the code
    of its own query only. *)
Theorem session_invariant (s : gmap string pyval) :
  reachable s ->
  chart_has_research s /\
  forall w inp,
    at_observations chart_has_research s (events (script w inp s)) /\
    state (script w inp s) = replay s (events (script w inp s)) /\
    (has_api_key w && generate_clicked inp && truthy (VStr (user_query w inp s)) = true ->
     existsb is_call (events (script w inp s)) = true) /\
    cleared_before_calls (events (script w inp s)) /\
    fresh_display w inp s (events (script w inp s)).
Proof.
  intros Hreach.
  assert (Hs : chart_has_research s).
  { induction Hreach as [|w inp s _ IH]; [now apply chart_missing_has_research |].
    rewrite script_consistent. apply at_observations_end.
    now apply script_observations. }
  split; [exact Hs |]. intros w inp.
  destruct (script_trace w inp s) as [Hclear Hfresh].
  split; [now apply script_observations |].
  split; [apply script_consistent |].
  split; [| split; assumption].
  intros Hcase. apply andb3_true in Hcase as (Hkey & Hclick & Hne).
  now apply script_submission_calls.
Qed.

Lemma session_invariant_witness :
  let s := state (script chart_world (click_generate (Some bitcoin)) ∅) in
  chart_has_research s /\
  forall w inp,
    at_observations chart_has_research s (events (script w inp s)) /\
    state (script w inp s) = replay s (events (script w inp s)) /\
    (has_api_key w && generate_clicked inp && truthy (VStr (user_query w inp s)) = true ->
     existsb is_call (events (script w inp s)) = true) /\
    cleared_before_calls (events (script w inp s)) /\
    fresh_display w inp s (events (script w inp s)).
Proof.
  exact (session_invariant _ (reach_run chart_world (click_generate (Some bitcoin)) ∅
                                reach_new)).
Defined.

(** * More of the program *)

(** ** The search client on other answers *)

(** X1. Only status 200 is read: on any other status, also another 2xx,
    [search_web] returns the placeholder that asks for more specific terms,
    which names the query, and never looks at the body. *)
Theorem search_web_only_200 (w : world) (query : string) (s : gmap string pyval)
    (r : response) :
  http_get w (search_url query) 10 = Responded r ->
  status_code r <> 200%Z ->
  search_web w query s =
    Out (Ok ("Search completed for: " ++ query ++
             ". Please provide more specific terms for better results."))
        s [HttpGet (search_url query) 10]
  /\ contains query (search_non200 query) = true.
Proof.
  intros Hget Hstatus. split; [| apply contains_middle].
  unfold search_web, try_except, bind, requests_get, lift, ret. simpl.
  rewrite Hget. simpl.
  apply Z.eqb_neq in Hstatus. rewrite Hstatus. reflexivity.
Qed.

Lemma search_web_only_200_witness :
  search_web (sample_world (Responded (Response 204 (NotJson (RequestException "no body"))))
                           offline None) "UK GDP" ∅ =
    Out (Ok ("Search completed for: " ++ "UK GDP" ++
             ". Please provide more specific terms for better results."))
        ∅ [HttpGet (search_url "UK GDP") 10]
  /\ contains "UK GDP" (search_non200 "UK GDP") = true.
Proof.
  apply (search_web_only_200 _ "UK GDP" ∅
           (Response 204 (NotJson (RequestException "no body"))));
    [reflexivity | discriminate].
Defined.

(** X2. A status-200 body that is JSON but no object does not crash the
    client.  When neither key name is [in] the body (a list that does not
    hold them as items, a string that does not contain them) the result is
    the placeholder [Basic search completed for: {query}]; in every other
    case ([null], a boolean, a number, or a list or string that mentions a
    key) the lookup raises and the fallback text is returned. *)
Theorem search_web_body_not_object (w : world) (query : string) (s : gmap string pyval)
    (r : response) (data : pyval) :
  http_get w (search_url query) 10 = Responded r ->
  status_code r = 200%Z ->
  payload r = Json data ->
  isinstance_dict data = false ->
  value (search_web w query s) =
    Ok (match py_in "AbstractText" data, py_in "RelatedTopics" data with
        | Ok false, Ok false => "Basic search completed for: " ++ query
        | _, _ => search_failed query
        end).
Proof.
  intros Hget Hstatus Hbody Hdict.
  unfold search_web, try_except, bind, requests_get, lift, ret. simpl.
  rewrite Hget. simpl. rewrite Hstatus. simpl.
  unfold response_json. rewrite Hbody. simpl.
  unfold extract_results.
  destruct data; try discriminate; simpl; try reflexivity.
  - destruct (contains "AbstractText" s0); simpl; [reflexivity |].
    destruct (contains "RelatedTopics" s0); reflexivity.
  - destruct (existsb (str_eq "AbstractText") items); simpl; [reflexivity |].
    destruct (existsb (str_eq "RelatedTopics") items); reflexivity.
Qed.

Lemma search_web_body_not_object_witness :
  value (search_web (sample_world (ok200 (VList [])) offline None) "UK GDP" ∅) =
    Ok "Basic search completed for: UK GDP".
Proof.
  exact (search_web_body_not_object (sample_world (ok200 (VList [])) offline None)
           "UK GDP" ∅ (Response 200 (Json (VList []))) (VList [])
           eq_refl eq_refl eq_refl eq_refl).
Defined.



(** ** The chat wrapper on other answers *)

Lemma truthy_str (s : string) : s <> "" -> truthy (VStr s) = true.
Proof. intros H. cbn [truthy]. now apply negb_true_iff, String.eqb_neq. Qed.

Lemma chat_events_key w messages :
  has_api_key w = true -> chat_events w messages = [chat_request w messages].
Proof.
  unfold has_api_key. intros Hkey.
  unfold chat_events, chat_request, call_openai_api, try_except, bind, requests_post,
    lift, ret. simpl.
  rewrite Hkey. simpl.
  destruct (http_post w _ _ _ _) as [r|e]; simpl; [| reflexivity].
  destruct (status_code r =? 200)%Z; simpl; [| reflexivity].
  destruct (response_json r) as [res|e|]; simpl; try reflexivity.
  destruct (first_choice_content res); reflexivity.
Qed.

Lemma completion_status_error w messages r :
  has_api_key w = true ->
  http_post w chat_url (chat_headers w (resolve_api_key w)) (chat_data messages) 30
    = Responded r ->
  status_code r <> 200%Z ->
  completion w messages = VStr (api_error (status_code r)).
Proof.
  unfold has_api_key. intros Hkey Hpost Hstatus.
  unfold completion, call_openai_api, try_except, bind, requests_post, lift, ret. simpl.
  rewrite Hkey. simpl. rewrite Hpost. simpl.
  apply Z.eqb_neq in Hstatus. rewrite Hstatus. reflexivity.
Qed.

(** X4. With a credential, when the chat endpoint answers with any status
    other than 200, [call_openai_api] returns the text [API Error: ...] that
    carries the status code, after its one request; the body is not read. *)
Theorem chat_status_error (w : world) (messages : pyval) (s : gmap string pyval)
    (r : response) :
  has_api_key w = true ->
  http_post w chat_url (chat_headers w (resolve_api_key w)) (chat_data messages) 30
    = Responded r ->
  status_code r <> 200%Z ->
  call_openai_api w messages s =
    Out (Ok (VStr ("API Error: " ++ str_of_Z (status_code r) ++
                   ". Please check your API key and try again.")))
        s [chat_request w messages]
  /\ contains (str_of_Z (status_code r)) (api_error (status_code r)) = true.
Proof.
  intros Hkey Hpost Hstatus. split; [| apply contains_middle].
  rewrite call_openai_api_run, (chat_events_key w messages Hkey).
  now rewrite (completion_status_error w messages r Hkey Hpost Hstatus).
Qed.

Lemma chat_status_error_witness :
  let w := sample_world offline
             (Responded (Response 401 (Json (VDict [("error", VStr "bad key")]))))
             (Some "sk-wrong") in
  call_openai_api w (VList [message "user" "plot"]) ∅ =
    Out (Ok (VStr "API Error: 401. Please check your API key and try again."))
        ∅ [chat_request w (VList [message "user" "plot"])]
  /\ contains "401" (api_error 401) = true.
Proof.
  intros w.
  apply (chat_status_error w (VList [message "user" "plot"]) ∅
           (Response 401 (Json (VDict [("error", VStr "bad key")]))));
    [reflexivity | reflexivity | discriminate].
Defined.

(** X5. With a credential, when [requests.post] raises (connection error,
    timeout), [call_openai_api] returns the error text that ends with
    [str(e)], after its one request. *)
Theorem chat_transport_failure (w : world) (messages : pyval) (s : gmap string pyval)
    (e : exn) :
  has_api_key w = true ->
  http_post w chat_url (chat_headers w (resolve_api_key w)) (chat_data messages) 30
    = Failed e ->
  call_openai_api w messages s =
    Out (Ok (VStr ("Error calling OpenAI API: " ++ str_exn e))) s
        [chat_request w messages].
Proof.
  intros Hkey Hpost.
  rewrite call_openai_api_run, (chat_events_key w messages Hkey).
  do 2 f_equal.
  unfold has_api_key in Hkey.
  unfold completion, call_openai_api, try_except, bind, requests_post, lift, ret. simpl.
  rewrite Hkey. simpl. rewrite Hpost. reflexivity.
Qed.

Lemma chat_transport_failure_witness :
  let w := sample_world offline offline (Some "sk-test") in
  call_openai_api w (VList [message "user" "plot"]) ∅ =
    Out (Ok (VStr "Error calling OpenAI API: connection refused")) ∅
        [chat_request w (VList [message "user" "plot"])].
Proof.
  intros w.
  exact (chat_transport_failure w (VList [message "user" "plot"]) ∅
           (RequestException "connection refused") eq_refl eq_refl).
Defined.

(** X6. With a credential, [call_openai_api] makes exactly one request,
    whatever the endpoint answers: a POST to the chat-completions URL with
    the bearer token and the JSON content type, the fixed model, the
    messages as they were given, temperature 0.1, at most 2000 tokens, and a
    timeout of 30; and it leaves the session state as it was. *)
Theorem chat_request_shape (w : world) (messages : pyval) (s : gmap string pyval) :
  has_api_key w = true ->
  events (call_openai_api w messages s) =
    [HttpPost "https://api.openai.com/v1/chat/completions"
       [("Authorization", "Bearer " ++ py_str w (resolve_api_key w));
        ("Content-Type", "application/json")]
       (VDict [("model", VStr "gpt-4-1106-preview");
               ("messages", messages);
               ("temperature", VFloat 0.1%float);
               ("max_tokens", VInt 2000)])
       30]
  /\ state (call_openai_api w messages s) = s.
Proof.
  intros Hkey. rewrite call_openai_api_run. cbn [events state].
  split; [| reflexivity]. now rewrite (chat_events_key w messages Hkey).
Qed.

Lemma chat_request_shape_witness :
  let w := sample_world offline offline (Some "sk-test") in
  events (call_openai_api w (VList [message "user" "plot"]) old_session) =
    [HttpPost "https://api.openai.com/v1/chat/completions"
       [("Authorization", "Bearer sk-test"); ("Content-Type", "application/json")]
       (VDict [("model", VStr "gpt-4-1106-preview");
               ("messages", VList [message "user" "plot"]);
               ("temperature", VFloat 0.1%float);
               ("max_tokens", VInt 2000)])
       30]
  /\ state (call_openai_api w (VList [message "user" "plot"]) old_session) = old_session.
Proof.
  intros w.
  exact (chat_request_shape w (VList [message "user" "plot"]) old_session eq_refl).
Defined.

(** X7. Where the credential comes from: a non-empty environment variable
    wins, whatever the secrets store holds; an environment variable that is
    unset or empty gives way to the secret.  In both cases the request
    carries the key as its bearer token. *)
Theorem api_key_precedence (w : world) (k : string) :
  k <> "" ->
  getenv w "OPENAI_API_KEY" = Some k \/
  ((getenv w "OPENAI_API_KEY" = None \/ getenv w "OPENAI_API_KEY" = Some "") /\
   secrets w !! "OPENAI_API_KEY" = Some (VStr k)) ->
  resolve_api_key w = VStr k /\
  has_api_key w = true /\
  chat_headers w (resolve_api_key w) =
    [("Authorization", "Bearer " ++ k); ("Content-Type", "application/json")].
Proof.
  intros Hk Hsource.
  assert (Hkey : resolve_api_key w = VStr k).
  { unfold resolve_api_key, os_getenv, secrets_get, py_or.
    destruct Hsource as [-> | [[-> | ->] ->]]; [now rewrite (truthy_str k Hk) | |];
      reflexivity. }
  unfold has_api_key. rewrite Hkey.
  split; [reflexivity |]. split; [now apply truthy_str | reflexivity].
Qed.

Lemma api_key_precedence_witness :
  resolve_api_key empty_variable_world = VStr "sk-secret" /\
  has_api_key empty_variable_world = true /\
  chat_headers empty_variable_world (resolve_api_key empty_variable_world) =
    [("Authorization", "Bearer " ++ "sk-secret"); ("Content-Type", "application/json")].
Proof.
  apply (api_key_precedence empty_variable_world "sk-secret"); [discriminate |].
  right. split; [now right | reflexivity].
Defined.

(** X8. Every error path of [call_openai_api] returns a non-empty text, so
    a returned value that is empty (an empty string, [None], zero, an empty
    list) can only be the content of a well-formed completion that the
    endpoint sent with status 200. *)
Theorem chat_empty_only_from_completion (w : world) (messages : pyval)
    (s : gmap string pyval) (v : pyval) :
  value (call_openai_api w messages s) = Ok v ->
  truthy v = false ->
  has_api_key w = true /\
  exists r res,
    http_post w chat_url (chat_headers w (resolve_api_key w)) (chat_data messages) 30
      = Responded r /\
    status_code r = 200%Z /\
    payload r = Json res /\
    well_formed_completion res v.
Proof.
  unfold has_api_key, call_openai_api, try_except, bind, requests_post, lift, ret. simpl.
  destruct (truthy (resolve_api_key w)); simpl.
  2:{ intros [= <-] Ht. discriminate. }
  destruct (http_post w _ _ _ _) as [r|e] eqn:Hpost; simpl.
  2:{ intros [= <-] Ht. now rewrite truthy_str in Ht. }
  destruct (status_code r =? 200)%Z eqn:Hstatus; simpl.
  2:{ intros [= <-] Ht. now rewrite truthy_str in Ht. }
  unfold response_json.
  destruct (payload r) as [res|e] eqn:Hbody; simpl.
  2:{ intros [= <-] Ht. now rewrite truthy_str in Ht. }
  destruct (first_choice_content res) as [c|e|] eqn:Hc; simpl.
  - intros [= <-] Ht. split; [reflexivity |]. exists r, res.
    repeat split; try assumption.
    + now apply Z.eqb_eq.
    + now apply first_choice_content_ok.
  - intros [= <-] Ht. now rewrite truthy_str in Ht.
  - discriminate.
Qed.

Lemma chat_empty_only_from_completion_witness :
  let w := sample_world offline (ok200 (completion_body (VStr ""))) (Some "sk-test") in
  has_api_key w = true /\
  exists r res,
    http_post w chat_url (chat_headers w (resolve_api_key w))
              (chat_data (VList [message "user" "plot"])) 30
      = Responded r /\
    status_code r = 200%Z /\
    payload r = Json res /\
    well_formed_completion res (VStr "").
Proof.
  intros w.
  exact (chat_empty_only_from_completion w (VList [message "user" "plot"]) ∅ (VStr "")
           eq_refl eq_refl).
Defined.

(** ** The two agents *)

Lemma chat_events_posts w messages e :
  In e (chat_events w messages) -> e = chat_request w messages.
Proof.
  unfold chat_events, chat_request, call_openai_api, try_except, bind, requests_post,
    lift, ret. simpl.
  destruct (negb (truthy (resolve_api_key w))); simpl; [contradiction |].
  assert (Hone : In e [HttpPost chat_url (chat_headers w (resolve_api_key w))
                         (chat_data messages) 30] ->
                 e = HttpPost chat_url (chat_headers w (resolve_api_key w))
                       (chat_data messages) 30)
    by (intros [<- | []]; reflexivity).
  destruct (http_post w _ _ _ _) as [r|ex]; simpl; [| exact Hone].
  destruct (status_code r =? 200)%Z; simpl; [| exact Hone].
  destruct (response_json r) as [res|ex|]; simpl; try exact Hone.
  destruct (first_choice_content res); exact Hone.
Qed.

(** X9. The research agent searches first and then asks the model once: its
    chat request has the fixed system prompt and a user message that
    contains the query and the text the search returned, both word for
    word; it returns the wrapper's answer as it is and leaves the session
    state alone. *)
Theorem research_agent_hand_off (w : world) (query : string) (s : gmap string pyval) :
  exists found content,
    value (search_web w query s) = Ok found /\
    contains query content = true /\
    contains found content = true /\
    let messages :=
      VList [message "system" research_system_prompt; message "user" content] in
    research_agent w query s =
      Out (Ok (completion w messages)) s
          (Render (markdown research_working_html true) ::
           HttpGet (search_url query) 10 :: chat_events w messages).
Proof.
  exists (search_text w query).
  exists ("Query: " ++ query ++ nl ++ nl ++
          "Search Results: " ++ search_text w query ++ nl ++ nl ++
          "Please provide structured data for visualization.").
  split; [now rewrite (proj1 (search_web_run w query s)) |].
  split; [apply contains_middle |].
  split; [do 5 apply contains_app_l; apply contains_prefix |].
  cbn zeta. unfold research_agent.
  repeat mstep ltac:(first [apply search_web_run | apply call_openai_api_run]).
  mdone.
Qed.

(** X10. The chart generator asks the model once and never searches: its
    chat request has the fixed system prompt and a user message that
    contains the original query and the research data as an f-string prints
    it; it returns the wrapper's answer as it is and leaves the session
    state alone. *)
Theorem chart_generator_hand_off (w : world) (research_data : pyval)
    (original_query : string) (s : gmap string pyval) :
  exists content,
    contains original_query content = true /\
    contains (py_str w research_data) content = true /\
    (forall url timeout,
       ~ In (HttpGet url timeout)
            (events (chart_generator_agent w research_data original_query s))) /\
    let messages :=
      VList [message "system" chart_system_prompt; message "user" content] in
    chart_generator_agent w research_data original_query s =
      Out (Ok (completion w messages)) s
          (Render (markdown chart_working_html true) :: chat_events w messages).
Proof.
  exists ("Original Query: " ++ original_query ++ nl ++ nl ++
          "Research Data: " ++ py_str w research_data ++ nl ++ nl ++
          "Create complete Python visualization code.").
  split; [apply contains_middle |].
  split; [do 5 apply contains_app_l; apply contains_prefix |].
  assert (Hrun : chart_generator_agent w research_data original_query s =
                 Out (Ok (completion w (chart_messages w research_data original_query))) s
                     (Render (markdown chart_working_html true) ::
                      chat_events w (chart_messages w research_data original_query))).
  { unfold chart_generator_agent.
    repeat mstep ltac:(apply call_openai_api_run). mdone. }
  split; [| exact Hrun].
  intros url timeout. rewrite Hrun. cbn [events].
  intros [Hmd | Hin]; [discriminate |].
  apply chat_events_posts in Hin. discriminate.
Qed.

(** ** A submission, step by step *)

Lemma calls_app l1 l2 : calls (l1 ++ l2) = (calls l1 ++ calls l2)%list.
Proof. apply List.filter_app. Qed.

Lemma calls_none l : existsb is_call l = false -> calls l = [].
Proof.
  unfold calls. induction l as [|e l IH]; [reflexivity |]. cbn [existsb List.filter].
  intros H. apply orb_false_elim in H as [He Hl]. rewrite He. now apply IH.
Qed.

Lemma chat_events_cases w messages :
  chat_events w messages = [] \/ chat_events w messages = [chat_request w messages].
Proof.
  destruct (has_api_key w) eqn:Hkey; [right; now apply chat_events_key |].
  left. unfold has_api_key in Hkey.
  unfold chat_events, call_openai_api, try_except. now rewrite Hkey.
Qed.

Lemma research_text_completion w query :
  research_text w query = completion w (research_messages query (search_text w query)).
Proof.
  unfold research_text, research_agent.
  repeat mstep ltac:(first [apply search_web_run | apply call_openai_api_run]).
  reflexivity.
Qed.

Lemma chart_text_completion w research_data query :
  chart_text w research_data query = completion w (chart_messages w research_data query).
Proof.
  unfold chart_text, chart_generator_agent.
  repeat mstep ltac:(apply call_openai_api_run).
  reflexivity.
Qed.

Lemma pipeline_calls w query :
  has_api_key w = true ->
  calls (pipeline_events w query) =
    HttpGet (search_url query) 10 ::
    chat_request w (research_messages query (search_text w query)) ::
    (if truthy (research_text w query)
     then [chat_request w (chart_messages w (research_text w query) query)]
     else []).
Proof.
  intros Hkey.
  unfold pipeline_events, chart_step_events, research_events, chart_events, chart_panel,
    download_events.
  rewrite !(chat_events_key w _ Hkey).
  destruct (truthy (research_text w query)); [| reflexivity].
  destruct (truthy (chart_text w (research_text w query) query)); [| reflexivity].
  now destruct (isinstance_str (chart_text w (research_text w query) query)).
Qed.

Lemma pipeline_outputs w query :
  outputs (pipeline_events w query) =
    if truthy (research_text w query) then
      Render (write (research_text w query)) ::
      (if truthy (chart_text w (research_text w query) query) then
         Render (code (chart_text w (research_text w query) query) (Some "python")) ::
         download_events (chart_text w (research_text w query) query) query
       else [])
    else [].
Proof.
  unfold pipeline_events, chart_step_events, research_events, chart_events, chart_panel,
    download_events.
  destruct (chat_events_cases w (research_messages query (search_text w query)))
    as [-> | ->];
    destruct (chat_events_cases w (chart_messages w (research_text w query) query))
      as [-> | ->];
    destruct (truthy (research_text w query)); try reflexivity;
    destruct (truthy (chart_text w (research_text w query) query)); try reflexivity;
    now destruct (isinstance_str (chart_text w (research_text w query) query)).
Qed.

Lemma submission_tail_outputs w query :
  outputs (submission_tail w query) =
    if truthy (research_text w query) &&
       truthy (chart_text w (research_text w query) query) &&
       isinstance_str (chart_text w (research_text w query) query)
    then [Render (write (research_text w query));
          Render (code (chart_text w (research_text w query) query) (Some "python"))]
    else [].
Proof.
  unfold submission_tail, after_pipeline, pipeline_value, download_result.
  rewrite pipeline_state_research, pipeline_state_chart.
  unfold previous_outcome.
  destruct (truthy (research_text w query)) eqn:Hr; cbn [andb truthy];
    [| reflexivity].
  destruct (truthy (chart_text w (research_text w query) query)) eqn:Hc;
    cbn [andb truthy]; [| now rewrite Hr].
  destruct (isinstance_str (chart_text w (research_text w query) query));
    [now rewrite Hr, Hc | reflexivity].
Qed.

Lemma pipeline_state_other w query (s : gmap string pyval) k :
  k <> "research_data" -> k <> "chart_code" ->
  pipeline_state w query s !! k = s !! k.
Proof.
  intros Hr Hc. unfold pipeline_state.
  destruct (truthy (research_text w query));
    [destruct (truthy (chart_text w (research_text w query) query)) |];
    now rewrite !lookup_insert_ne by congruence.
Qed.

(** X11. The calls of a submission.  With a credential, a submission of a
    non-empty query makes these HTTP calls and no other, in this order: the
    search for the query; the chat request built from the query and the text
    the search returned; and, only when the research text that came back is
    not empty, the chat request built from that research text and the
    query. *)
Theorem submission_calls (w : world) (inp : inputs) (s : gmap string pyval)
    (query : string) :
  has_api_key w = true ->
  generate_clicked inp = true ->
  user_query w inp s = query ->
  truthy (VStr query) = true ->
  let found := search_text w query in
  let research := completion w (research_messages query found) in
  value (search_web w query s) = Ok found /\
  calls (events (main w inp s)) =
    HttpGet (search_url query) 10 ::
    chat_request w (research_messages query found) ::
    (if truthy research then [chat_request w (chart_messages w research query)] else []).
Proof.
  intros Hkey Hclick Hq Hne found research.
  split; [now rewrite (proj1 (search_web_run w query s)) |].
  destruct (main_submission w inp s query Hkey Hclick Hq Hne) as (head & Hhead & Hev & _).
  rewrite Hev, !calls_app, (calls_none head (chrome_no_call _ Hhead)).
  rewrite (calls_none (submission_tail w query)) by apply submission_tail_quiet.
  rewrite app_nil_r, (pipeline_calls w query Hkey). cbn [app].
  subst research found. now rewrite <- research_text_completion.
Qed.

(** X12. What a submission displays.  The research text is written when it
    is not empty, and the code panel follows when the chart code is not
    empty as well.  When that chart code is a string, the download button
    follows, with its file name cut after twenty characters of the query,
    and then the section of previous results shows the same two values once
    more.  When it is no string (a number, a list, an object of the JSON
    body), the download button raises: the code panel is the last display
    and the run ends with the exception.  An empty research text displays
    nothing, and an empty chart code leaves the research text alone on the
    page. *)
Theorem submission_outputs (w : world) (inp : inputs) (s : gmap string pyval)
    (query : string) :
  has_api_key w = true ->
  generate_clicked inp = true ->
  user_query w inp s = query ->
  truthy (VStr query) = true ->
  let research := research_text w query in
  let chart := chart_text w research query in
  let name := "chart_" ++ replace_char " " "_" (take_str 20 query) ++ ".py" in
  outputs (events (main w inp s)) =
    (if truthy research then
       Render (write research) ::
       (if truthy chart then
          Render (code chart (Some "python")) ::
          (if isinstance_str chart then
             [Render (download_button "📥 Download Python Code" chart name "text/plain");
              Render (write research);
              Render (code chart (Some "python"))]
           else [])
        else [])
     else [])
  /\ value (main w inp s) =
       (if truthy research && truthy chart && negb (isinstance_str chart)
        then Raise (invalid_data chart) else Ok tt).
Proof.
  intros Hkey Hclick Hq Hne research chart name.
  destruct (main_submission w inp s query Hkey Hclick Hq Hne) as (head & Hhead & Hev & _).
  split.
  - rewrite Hev, !outputs_app, (chrome_no_output _ Hhead).
    rewrite pipeline_outputs, submission_tail_outputs.
    subst research chart name. unfold download_events.
    destruct (truthy (research_text w query)); [| reflexivity].
    destruct (truthy (chart_text w (research_text w query) query)); [| reflexivity].
    now destruct (isinstance_str (chart_text w (research_text w query) query)).
  - subst research chart.
    rewrite (main_submission_value w inp s query Hkey Hclick Hq Hne).
    unfold pipeline_value, download_result.
    destruct (truthy (research_text w query)); [| reflexivity].
    destruct (truthy (chart_text w (research_text w query) query)); [| reflexivity].
    now destruct (isinstance_str (chart_text w (research_text w query) query)).
Qed.

(** X13. What a submission stores.  The research text is stored only when
    it is not empty, and the chart code only when both are not empty;
    whatever is not stored is [None], so nothing of an earlier run is left.
    No other key of the session changes, except the selected example. *)
Theorem submission_stores (w : world) (inp : inputs) (s : gmap string pyval)
    (query : string) :
  has_api_key w = true ->
  generate_clicked inp = true ->
  user_query w inp s = query ->
  truthy (VStr query) = true ->
  let research := research_text w query in
  let chart := chart_text w research query in
  state (main w inp s) !! "research_data" =
    Some (if truthy research then research else VNone) /\
  state (main w inp s) !! "chart_code" =
    Some (if truthy research && truthy chart then chart else VNone) /\
  forall k, k <> "research_data" -> k <> "chart_code" -> k <> "selected_query" ->
            state (main w inp s) !! k = s !! k.
Proof.
  intros Hkey Hclick Hq Hne research chart.
  destruct (main_submission w inp s query Hkey Hclick Hq Hne) as (head & _ & _ & Hst).
  destruct (sidebar_panel_run inp s) as (_ & Hside & _).
  rewrite Hst. split; [apply pipeline_state_research |].
  split; [apply pipeline_state_chart |].
  intros k Hr Hc Hsel. rewrite pipeline_state_other by assumption. now apply Hside.
Qed.

Lemma submission_calls_witness :
  calls (events (main chart_world (click_generate (Some bitcoin)) old_session)) =
    [HttpGet (search_url bitcoin) 10;
     chat_request chart_world (research_messages bitcoin (search_failed bitcoin));
     chat_request chart_world
       (chart_messages chart_world (VStr "import matplotlib.pyplot as plt") bitcoin)].
Proof.
  exact (proj2 (submission_calls chart_world (click_generate (Some bitcoin)) old_session
                  bitcoin eq_refl eq_refl eq_refl eq_refl)).
Defined.

Lemma submission_outputs_witness :
  let code_text := VStr "import matplotlib.pyplot as plt" in
  outputs (events (main chart_world (click_generate (Some pib)) old_session)) =
    [Render (write code_text);
     Render (code code_text (Some "python"));
     Render (download_button "📥 Download Python Code" code_text
               "chart_Évolution_du_PIB_fra.py" "text/plain");
     Render (write code_text);
     Render (code code_text (Some "python"))]
  /\ value (main chart_world (click_generate (Some pib)) old_session) = Ok tt.
Proof.
  exact (submission_outputs chart_world (click_generate (Some pib)) old_session
           pib eq_refl eq_refl eq_refl eq_refl).
Defined.

Lemma submission_stores_witness :
  let w := sample_world offline (ok200 (completion_body (VStr ""))) (Some "sk-test") in
  state (main w (click_generate (Some bitcoin)) old_session) !! "research_data" =
    Some VNone /\
  state (main w (click_generate (Some bitcoin)) old_session) !! "chart_code" =
    Some VNone /\
  forall k, k <> "research_data" -> k <> "chart_code" -> k <> "selected_query" ->
            state (main w (click_generate (Some bitcoin)) old_session) !! k =
            old_session !! k.
Proof.
  intros w.
  exact (submission_stores w (click_generate (Some bitcoin)) old_session bitcoin
           eq_refl eq_refl eq_refl eq_refl).
Defined.

(** X14. Errors travel as ordinary text.  With a credential, when the chat
    endpoint answers every request with the same status other than 200, a
    submission stores the text [API Error: ...] both as research text and as
    chart code, and the download button offers that text as the Python
    file. *)
Theorem api_error_flows_to_download (w : world) (inp : inputs) (s : gmap string pyval)
    (query : string) (status : Z) :
  has_api_key w = true ->
  generate_clicked inp = true ->
  user_query w inp s = query ->
  truthy (VStr query) = true ->
  (forall url headers json timeout,
     exists r, http_post w url headers json timeout = Responded r /\
               status_code r = status) ->
  status <> 200%Z ->
  let text := VStr ("API Error: " ++ str_of_Z status ++
                    ". Please check your API key and try again.") in
  state (main w inp s) !! "research_data" = Some text /\
  state (main w inp s) !! "chart_code" = Some text /\
  In (Render (download_button "📥 Download Python Code" text
                (download_name query) "text/plain"))
     (events (main w inp s)).
Proof.
  intros Hkey Hclick Hq Hne Hall Hstatus text.
  assert (Hcompletion : forall messages, completion w messages = text).
  { intros messages.
    destruct (Hall chat_url (chat_headers w (resolve_api_key w)) (chat_data messages)
                   30%Z) as (r & Hpost & Hr).
    rewrite (completion_status_error w messages r Hkey Hpost) by now rewrite Hr.
    now rewrite Hr. }
  assert (Hresearch : research_text w query = text)
    by (rewrite research_text_completion; apply Hcompletion).
  assert (Hchart : chart_text w text query = text)
    by (rewrite chart_text_completion; apply Hcompletion).
  assert (Htext : truthy text = true) by (apply truthy_str; discriminate).
  destruct (main_submission w inp s query Hkey Hclick Hq Hne) as (head & _ & Hev & Hst).
  rewrite Hst, pipeline_state_research, pipeline_state_chart.
  rewrite Hresearch, Hchart, Htext. cbn [andb].
  split; [reflexivity |]. split; [reflexivity |].
  destruct (pipeline_events_panel w query) as (before & Hpanel);
    [now rewrite Hresearch | now rewrite Hresearch, Hchart |].
  rewrite Hev, Hpanel, Hresearch, Hchart.
  apply in_or_app. right. apply in_or_app. left.
  apply in_or_app. right.
  cbn [chart_panel download_events isinstance_str app]. do 4 right. now left.
Qed.

Lemma api_error_flows_to_download_witness :
  let w := sample_world offline
             (Responded (Response 401 (Json (VDict [("error", VStr "bad key")]))))
             (Some "sk-wrong") in
  let text := VStr "API Error: 401. Please check your API key and try again." in
  state (main w (click_generate (Some pib)) ∅) !! "research_data" = Some text /\
  state (main w (click_generate (Some pib)) ∅) !! "chart_code" = Some text /\
  In (Render (download_button "📥 Download Python Code" text
                "chart_Évolution_du_PIB_fra.py" "text/plain"))
     (events (main w (click_generate (Some pib)) ∅)).
Proof.
  intros w.
  apply (api_error_flows_to_download w (click_generate (Some pib)) ∅ pib 401);
    try reflexivity; [| discriminate].
  intros url headers json timeout. eexists. split; reflexivity.
Defined.

(** ** The page around the pipeline *)

Lemma example_buttons_no_form inp queries s :
  existsb is_query_form (events (example_buttons inp queries s)) = false.
Proof.
  revert s. induction queries as [|q rest IH]; intros s; [reflexivity |].
  cbn [example_buttons].
  mstep fail.
  destruct (example_clicked inp q); mstep fail; apply IH.
Qed.

Lemma sidebar_panel_no_form inp s :
  existsb is_query_form (events (sidebar_panel inp s)) = false.
Proof.
  unfold sidebar_panel. repeat mstep fail.
  exact (example_buttons_no_form inp example_queries s).
Qed.

Lemma main_input_explicit w inp s :
  main_input w inp s =
    Out (Ok (default (py_str w (default (VStr "") (s !! "selected_query")))
                     (text_entered inp)))
        s
        [Render (text_input "🎯 What would you like to research and visualize?"
                   (py_str w (default (VStr "") (s !! "selected_query")))
                   "e.g., Show me top 10 most populated countries with a bar chart")].
Proof. reflexivity. Qed.

(** [main] up to the generate button, widget by widget. *)
Lemma main_explicit w inp s :
  main w inp s =
    let s1 := state (sidebar_panel inp s) in
    let top := Render (markdown main_header_html true) :: events (sidebar_panel inp s) in
    if has_api_key w then
      let o := (generate_button w inp (user_query w inp s) ;; previous_results) s1 in
      Out (value o) (state o)
          (top ++
           [Render (success "✅ AI System Ready!");
            Render (text_input "🎯 What would you like to research and visualize?"
                      (py_str w (default (VStr "") (s1 !! "selected_query")))
                      "e.g., Show me top 10 most populated countries with a bar chart")] ++
           events o)
    else
      Out Stop s1
          (top ++
           [Render (error "❌ OpenAI API key not found!");
            Render (info "Please add your OpenAI API key in Streamlit secrets:");
            Render (code (VStr ("OPENAI_API_KEY = " ++ dq ++ "sk-your-key-here" ++ dq))
                         None)]).
Proof.
  destruct (sidebar_panel_run inp s) as (Hv & _ & _).
  unfold main, page_header.
  mstep fail. mstep ltac:(apply run_eta, Hv).
  unfold check_api_key, has_api_key.
  destruct (truthy (resolve_api_key w)); cbn [negb]; cbn zeta.
  - mstep fail. mstep ltac:(apply main_input_explicit).
    fold (user_query w inp s).
    generalize ((generate_button w inp (user_query w inp s) ;; previous_results)
                  (state (sidebar_panel inp s))).
    intros o. cbn [app]. rewrite <- ?app_assoc. reflexivity.
  - erewrite bind_stop by (repeat mstep fail; reflexivity).
    cbn [app]. reflexivity.
Qed.

(** X15. Without a credential the page stops at the check: [main] ends with
    the script stop, having rendered the error box but neither the query box
    nor the generate button; it makes no HTTP call and leaves the stored
    research text and chart code as they were, whatever was clicked or
    typed. *)
Theorem no_credential_page_stops (w : world) (inp : inputs) (s : gmap string pyval) :
  has_api_key w = false ->
  value (main w inp s) = Stop /\
  In (Render (error "❌ OpenAI API key not found!")) (events (main w inp s)) /\
  existsb is_query_form (events (main w inp s)) = false /\
  existsb is_call (events (main w inp s)) = false /\
  state (main w inp s) !! "research_data" = s !! "research_data" /\
  state (main w inp s) !! "chart_code" = s !! "chart_code".
Proof.
  intros Hkey.
  destruct (main_quiet w inp s) as (Hcalls & _ & Hr & Hc); [now rewrite Hkey |].
  rewrite main_explicit in *. rewrite Hkey in *. cbn zeta in *. cbn [value events] in *.
  split; [reflexivity |].
  split; [apply in_or_app; right; now left |].
  split; [| now repeat split].
  cbn [app existsb is_query_form orb].
  rewrite existsb_app, sidebar_panel_no_form. reflexivity.
Qed.

Lemma no_credential_page_stops_witness :
  let w := sample_world offline (ok200 (completion_body (VStr "text"))) None in
  let inp := click_generate (Some bitcoin) in
  value (main w inp old_session) = Stop /\
  In (Render (error "❌ OpenAI API key not found!")) (events (main w inp old_session)) /\
  existsb is_query_form (events (main w inp old_session)) = false /\
  existsb is_call (events (main w inp old_session)) = false /\
  state (main w inp old_session) !! "research_data" = old_session !! "research_data" /\
  state (main w inp old_session) !! "chart_code" = old_session !! "chart_code".
Proof.
  intros w inp. exact (no_credential_page_stops w inp old_session eq_refl).
Defined.

(** *** The example buttons and the query box *)

Lemma example_buttons_keeps inp q queries (s : gmap string pyval) :
  (forall k, example_clicked inp k = String.eqb k q) ->
  s !! "selected_query" = Some (VStr q) ->
  state (example_buttons inp queries s) !! "selected_query" = Some (VStr q).
Proof.
  intros Hclick. revert s. induction queries as [|k rest IH]; intros s Hs; [exact Hs |].
  cbn [example_buttons]. mstep fail. rewrite Hclick.
  destruct (String.eqb_spec k q) as [-> |]; mstep fail; apply IH;
    [apply lookup_insert_eq | exact Hs].
Qed.

Lemma example_buttons_selects inp q queries (s : gmap string pyval) :
  (forall k, example_clicked inp k = String.eqb k q) ->
  In q queries ->
  state (example_buttons inp queries s) !! "selected_query" = Some (VStr q).
Proof.
  intros Hclick. revert s. induction queries as [|k rest IH]; intros s Hin; [contradiction |].
  cbn [example_buttons]. mstep fail. rewrite Hclick.
  destruct (String.eqb_spec k q) as [-> | Hne]; mstep fail.
  - apply example_buttons_keeps; [exact Hclick | apply lookup_insert_eq].
  - apply IH. destruct Hin as [-> | Hin]; [contradiction | exact Hin].
Qed.

Lemma example_buttons_idle inp queries (s : gmap string pyval) :
  (forall k, example_clicked inp k = false) ->
  state (example_buttons inp queries s) = s.
Proof.
  intros Hidle. induction queries as [|k rest IH]; [reflexivity |].
  cbn [example_buttons]. mstep fail. rewrite Hidle. mstep fail. exact IH.
Qed.

Lemma sidebar_panel_state inp s :
  state (sidebar_panel inp s) = state (example_buttons inp example_queries s).
Proof. unfold sidebar_panel. repeat mstep fail. reflexivity. Qed.

Lemma example_queries_nonempty q : In q example_queries -> truthy (VStr q) = true.
Proof.
  intros Hin. repeat (destruct Hin as [<- | Hin]; [reflexivity |]). contradiction.
Qed.

(** The session state at the end of [main]. *)
Lemma main_state w inp s :
  state (main w inp s) =
    if has_api_key w && generate_clicked inp && truthy (VStr (user_query w inp s))
    then pipeline_state w (user_query w inp s) (state (sidebar_panel inp s))
    else state (sidebar_panel inp s).
Proof.
  rewrite main_explicit. cbn zeta.
  destruct (has_api_key w); [| reflexivity].
  rewrite generate_run.
  destruct (generate_clicked inp); [| reflexivity].
  now destruct (truthy (VStr (user_query w inp s))).
Qed.

Lemma main_selected w inp s :
  state (main w inp s) !! "selected_query" =
  state (sidebar_panel inp s) !! "selected_query".
Proof.
  rewrite main_state.
  destruct (has_api_key w && generate_clicked inp && truthy (VStr (user_query w inp s)));
    [now apply pipeline_state_other | reflexivity].
Qed.

(** X16. A click on an example fills the query box on that same run: the
    example is stored as the selected query, the text box is rendered with
    it and returns it when the user did not edit the box.  The click alone
    starts nothing: without a click on the generate button no HTTP call is
    made. *)
Theorem example_click_fills_box (w : world) (inp : inputs) (s : gmap string pyval)
    (q : string) :
  In q example_queries ->
  (forall k, example_clicked inp k = String.eqb k q) ->
  text_entered inp = None ->
  user_query w inp s = q /\
  state (main w inp s) !! "selected_query" = Some (VStr q) /\
  (has_api_key w = true ->
   In (Render (text_input "🎯 What would you like to research and visualize?" q
                 "e.g., Show me top 10 most populated countries with a bar chart"))
      (events (main w inp s))) /\
  (generate_clicked inp = false -> existsb is_call (events (main w inp s)) = false).
Proof.
  intros Hin Hclick Htext.
  assert (Hsel : state (sidebar_panel inp s) !! "selected_query" = Some (VStr q))
    by (rewrite sidebar_panel_state; now apply example_buttons_selects).
  assert (Hq : user_query w inp s = q)
    by (unfold user_query; now rewrite Hsel, Htext).
  split; [exact Hq |]. split; [now rewrite main_selected |]. split.
  - intros Hkey. rewrite main_explicit, Hkey. cbn zeta. cbn [events].
    rewrite Hsel. apply in_or_app. right. right. now left.
  - intros Hidle. apply main_quiet. rewrite Hidle. now destruct (has_api_key w).
Qed.

Lemma example_click_fills_box_witness :
  let inp := click_example bitcoin in
  user_query chart_world inp old_session = bitcoin /\
  state (main chart_world inp old_session) !! "selected_query" = Some (VStr bitcoin) /\
  (has_api_key chart_world = true ->
   In (Render (text_input "🎯 What would you like to research and visualize?" bitcoin
                 "e.g., Show me top 10 most populated countries with a bar chart"))
      (events (main chart_world inp old_session))) /\
  (generate_clicked inp = false ->
   existsb is_call (events (main chart_world inp old_session)) = false).
Proof.
  intros inp.
  apply (example_click_fills_box chart_world inp old_session bitcoin);
    [do 2 right; now left | reflexivity | reflexivity].
Defined.

(** X17. From the example to the pipeline, over two runs.  After a run in
    which an example was clicked, a later run in which the user clicks the
    generate button without editing the box (and with a credential) submits
    that example: the box returns it and the search is made for it. *)
Theorem example_then_generate (w1 w2 : world) (inp1 inp2 : inputs)
    (s : gmap string pyval) (q : string) :
  In q example_queries ->
  (forall k, example_clicked inp1 k = String.eqb k q) ->
  (forall k, example_clicked inp2 k = false) ->
  text_entered inp2 = None ->
  generate_clicked inp2 = true ->
  has_api_key w2 = true ->
  let s' := state (script w1 inp1 s) in
  user_query w2 inp2 s' = q /\
  In (HttpGet (search_url q) 10) (events (script w2 inp2 s')).
Proof.
  intros Hin Hclick Hidle Htext Hgen Hkey s'.
  assert (Hsel : s' !! "selected_query" = Some (VStr q)).
  { subst s'. rewrite script_run. cbn zeta. cbn [state].
    rewrite main_selected, sidebar_panel_state.
    now apply example_buttons_selects. }
  assert (Hq : user_query w2 inp2 s' = q).
  { unfold user_query.
    now rewrite sidebar_panel_state, (example_buttons_idle inp2 _ _ Hidle), Hsel, Htext. }
  split; [exact Hq |].
  rewrite script_run. cbn zeta. cbn [events].
  rewrite <- user_query_init in Hq.
  destruct (main_submission w2 inp2 (init_state s') q Hkey Hgen Hq
              (example_queries_nonempty q Hin)) as (head & _ & Hev & _).
  rewrite Hev. apply in_or_app. right. apply in_or_app. right.
  apply in_or_app. left.
  unfold pipeline_events, research_events. cbn [app]. do 4 right. now left.
Qed.

Lemma example_then_generate_witness :
  let s' := state (script (sample_world offline offline None) (click_example bitcoin) ∅) in
  user_query chart_world (click_generate None) s' = bitcoin /\
  In (HttpGet (search_url bitcoin) 10)
     (events (script chart_world (click_generate None) s')).
Proof.
  apply (example_then_generate (sample_world offline offline None) chart_world
           (click_example bitcoin) (click_generate None) ∅ bitcoin);
    [do 2 right; now left | reflexivity | reflexivity | reflexivity | reflexivity
    | reflexivity].
Defined.

(** *** Reruns *)

Lemma init_state_keys s :
  (exists r, init_state s !! "research_data" = Some r) /\
  (exists c, init_state s !! "chart_code" = Some c).
Proof.
  unfold init_state.
  destruct (s !! "research_data") as [r|] eqn:Hr; cbn zeta.
  - destruct (s !! "chart_code") as [c|] eqn:Hc; split; eauto.
    + rewrite lookup_insert_ne by done. eauto.
    + rewrite lookup_insert_eq. eauto.
  - rewrite lookup_insert_ne by done.
    destruct (s !! "chart_code") as [c|] eqn:Hc; split.
    + rewrite lookup_insert_eq. eauto.
    + rewrite lookup_insert_ne by done. eauto.
    + rewrite lookup_insert_ne by done. rewrite lookup_insert_eq. eauto.
    + rewrite lookup_insert_eq. eauto.
Qed.

(** The value of [main] on a session that has the two keys. *)
Lemma main_value w inp (s : gmap string pyval) r c :
  s !! "research_data" = Some r ->
  s !! "chart_code" = Some c ->
  value (main w inp s) =
    if has_api_key w then
      if generate_clicked inp && truthy (VStr (user_query w inp s))
      then pipeline_value w (user_query w inp s)
      else Ok tt
    else Stop.
Proof.
  intros Hr Hc. destruct (sidebar_panel_run inp s) as (_ & Hside & _).
  rewrite main_explicit. cbn zeta.
  destruct (has_api_key w); [| reflexivity].
  rewrite generate_run.
  destruct (generate_clicked inp); [destruct (truthy (VStr (user_query w inp s))) |];
    cbn zeta; cbn [value andb]; [apply after_pipeline_value | |];
    rewrite (Hside "research_data"), (Hside "chart_code"), Hr, Hc by done;
    apply previous_outcome_value.
Qed.

(** X18. Where a run of the script can end with an exception.  With a
    credential (so the credential check returned and let the page go on), a
    run of the whole script ends normally in every case but one: a
    submission whose research text and chart code both came back non-empty,
    with a chart code that is no string, ends with the exception of the
    download button.  In particular no run ends with an attribute error on
    the session state, and the first lines of the script are what makes it
    so: [main] alone, on a session without [research_data], raises one when
    it reaches the section of previous results. *)
Theorem script_raises_only_at_download (w : world) (inp : inputs)
    (s : gmap string pyval) :
  has_api_key w = true ->
  let query := user_query w inp s in
  let research := research_text w query in
  let chart := chart_text w research query in
  value (script w inp s) =
    (if generate_clicked inp && truthy (VStr query) &&
        truthy research && truthy chart && negb (isinstance_str chart)
     then Raise (invalid_data chart)
     else Ok tt)
  /\ (generate_clicked inp = false ->
      s !! "research_data" = None ->
      value (main w inp s) = Raise (no_attribute "research_data")).
Proof.
  intros Hkey query research chart. split.
  - rewrite script_run. cbn zeta. cbn [value].
    destruct (init_state_keys s) as [(r & Hr) (c & Hc)].
    rewrite (main_value w inp (init_state s) r c Hr Hc), Hkey, user_query_init.
    fold query. subst research chart.
    unfold pipeline_value, download_result.
    destruct (generate_clicked inp); [| reflexivity].
    destruct (truthy (VStr query)); [| reflexivity].
    destruct (truthy (research_text w query)); [| reflexivity].
    destruct (truthy (chart_text w (research_text w query) query)); [| reflexivity].
    now destruct (isinstance_str (chart_text w (research_text w query) query)).
  - intros Hidle Hmissing.
    destruct (sidebar_panel_run inp s) as (_ & Hside & _).
    rewrite main_explicit, Hkey. cbn zeta.
    rewrite generate_run, Hidle. cbn zeta. cbn [value].
    rewrite (Hside "research_data"), Hmissing by done. reflexivity.
Qed.

Lemma script_raises_only_at_download_witness :
  value (script table_world (click_generate (Some bitcoin)) old_session) =
    Raise (StreamlitAPIException "Invalid binary data format: <class 'dict'>")
  /\ value (main chart_world no_click ∅) = Raise (no_attribute "research_data").
Proof.
  exact (conj
           (proj1 (script_raises_only_at_download table_world
                     (click_generate (Some bitcoin)) old_session eq_refl))
           (proj2 (script_raises_only_at_download chart_world no_click ∅ eq_refl)
                  eq_refl eq_refl)).
Defined.

(** X19. Results stay on the page.  With a credential, a rerun that is no
    submission (the generate button was not clicked) makes no HTTP call,
    leaves the two stored values as they are, and shows them again in the
    section of previous results, the research text and then the chart code,
    exactly when both are not empty. *)
Theorem rerun_shows_previous (w : world) (inp : inputs) (s : gmap string pyval)
    (r c : pyval) :
  has_api_key w = true ->
  generate_clicked inp = false ->
  s !! "research_data" = Some r ->
  s !! "chart_code" = Some c ->
  outputs (events (main w inp s)) =
    (if truthy r && truthy c
     then [Render (write r); Render (code c (Some "python"))]
     else []) /\
  calls (events (main w inp s)) = [] /\
  state (main w inp s) !! "research_data" = Some r /\
  state (main w inp s) !! "chart_code" = Some c.
Proof.
  intros Hkey Hidle Hr Hc.
  destruct (main_quiet w inp s) as (Hcalls & _ & Hsr & Hsc);
    [rewrite Hidle; now destruct (has_api_key w) |].
  split; [| split; [now apply calls_none | now rewrite Hsr, Hsc]].
  destruct (main_run w inp s) as (head & Hhead & Hmain).
  destruct (sidebar_panel_run inp s) as (_ & Hside & _).
  rewrite Hkey, generate_run, Hidle in Hmain. cbn zeta in Hmain.
  rewrite Hmain. cbn [events].
  rewrite outputs_app, (chrome_no_output _ Hhead).
  rewrite (Hside "research_data"), (Hside "chart_code"), Hr, Hc by done.
  unfold previous_outcome.
  destruct (truthy r); [| reflexivity]. now destruct (truthy c).
Qed.

Lemma rerun_shows_previous_witness :
  outputs (events (main chart_world no_click old_session)) =
    [Render (write (VStr "old research"));
     Render (code (VStr "old code") (Some "python"))] /\
  calls (events (main chart_world no_click old_session)) = [] /\
  state (main chart_world no_click old_session) !! "research_data" =
    Some (VStr "old research") /\
  state (main chart_world no_click old_session) !! "chart_code" = Some (VStr "old code").
Proof.
  exact (rerun_shows_previous chart_world no_click old_session
           (VStr "old research") (VStr "old code") eq_refl eq_refl eq_refl eq_refl).
Defined.

Lemma chat_requests_differ w query found research :
  chat_request w (research_messages query found) <>
  chat_request w (chart_messages w research query).
Proof.
  unfold chat_request, chat_data, research_messages, chart_messages, message.
  intros Hsame. discriminate Hsame.
Qed.

(** X20. The requests of a run.  A run of the script makes either no HTTP
    call at all, or one search followed by the chat request of the research
    agent and, only when the research text came back non-empty, the chat
    request of the chart generator: one search and one or two chat
    requests, three calls at most.  The calls of a run are pairwise
    different, so no request is sent twice. *)
Theorem at_most_three_calls (w : world) (inp : inputs) (s : gmap string pyval) :
  let sent := calls (events (script w inp s)) in
  NoDup sent /\
  (sent = [] \/
   exists query,
     let research := research_text w query in
     sent =
       HttpGet (search_url query) 10 ::
       chat_request w (research_messages query (search_text w query)) ::
       (if truthy research
        then [chat_request w (chart_messages w research query)]
        else [])).
Proof.
  cbn zeta. rewrite script_run. cbn zeta. cbn [events].
  rewrite calls_app, (calls_none _ (init_events_no_call s)). cbn [app].
  destruct (has_api_key w && generate_clicked inp &&
            truthy (VStr (user_query w inp (init_state s)))) eqn:Hcase.
  - apply andb3_true in Hcase as (Hkey & Hclick & Hne).
    destruct (main_submission w inp (init_state s) _ Hkey Hclick eq_refl Hne)
      as (head & Hhead & Hev & _).
    set (q := user_query w inp (init_state s)) in *.
    rewrite Hev, !calls_app, (calls_none head (chrome_no_call _ Hhead)).
    rewrite (calls_none (submission_tail w q)) by apply submission_tail_quiet.
    rewrite app_nil_r, (pipeline_calls w q Hkey). cbn [app].
    split; [| right; exists q; reflexivity].
    pose proof (chat_requests_differ w q (search_text w q) (research_text w q)) as Hdiff.
    destruct (truthy (research_text w q)); repeat constructor;
      repeat (apply not_elem_of_cons; split);
      first [apply not_elem_of_nil | discriminate | exact Hdiff].
  - destruct (main_quiet w inp (init_state s) Hcase) as (Hquiet & _).
    rewrite (calls_none _ Hquiet). split; [constructor | now left].
Qed.
